(** * WhatsApp Business Bot: the responder and its webhook adapter

    A shallow embedding of [app.py]: the keyword responder
    [WhatsAppBot.generate_response] with its session store and periodic
    sweep, and the Flask handler [handle_webhook] that feeds it.

    Conventions of the embedding.
    - A Python [str] is the list of its Unicode code points.  What CPython
      does to ASCII is written out; its Unicode tables for code points from
      128 up are a parameter ([unicode_db]) that no result depends on.
    - A [datetime] is a count of microseconds, a [timedelta] their
      difference; [timedelta.seconds] is the normalised seconds field.
    - [datetime.now()] is read twice per message (once by the sweep, once by
      the duplicate check); both readings are arguments.
    - The bot object is a record that every operation takes and returns.
    - A raised exception is the [Raise] outcome of a small error monad.
    - [print] only writes to the console.  The functions are first given
      without it; module [Console] gives the responder again with what it
      prints, since printing a sender that the console cannot encode raises,
      and shows that the two agree for every other sender. *)

From Stdlib Require Import ZArith NArith String Ascii DecimalString.
From stdpp Require Import gmap list fin_maps.

Local Open Scope Z_scope.

(** ** Python strings *)

Abbreviation str := (list N).

Module PyStr.

(** UTF-8 decoding, to write the source's literals down as code points. *)
Fixpoint utf8_decode (bs : list N) : str :=
  match bs with
  | [] => []
  | b0 :: t0 =>
    if (b0 <? 128)%N then b0 :: utf8_decode t0 else
    match t0 with
    | [] => []
    | b1 :: t1 =>
      if (b0 <? 224)%N then ((b0 mod 32) * 64 + b1 mod 64)%N :: utf8_decode t1 else
      match t1 with
      | [] => []
      | b2 :: t2 =>
        if (b0 <? 240)%N
        then ((b0 mod 16) * 4096 + (b1 mod 64) * 64 + b2 mod 64)%N :: utf8_decode t2
        else
        match t2 with
        | [] => []
        | b3 :: t3 =>
          ((b0 mod 8) * 262144 + (b1 mod 64) * 4096 + (b2 mod 64) * 64 + b3 mod 64)%N
            :: utf8_decode t3
        end
      end
    end
  end.

(** A literal of the source file. *)
Definition lit (s : string) : str :=
  utf8_decode (N_of_ascii <$> list_ascii_of_string s).

(** [s.startswith(w)] *)
Fixpoint startswith (w s : str) : bool :=
  match w, s with
  | [], _ => true
  | _ :: _, [] => false
  | a :: w', b :: s' => (a =? b)%N && startswith w' s'
  end.

(** [w in s]: [w] occurs in [s] as a contiguous run. *)
Fixpoint contains (w s : str) : bool :=
  startswith w s ||
  match s with
  | [] => false
  | _ :: s' => contains w s'
  end.

(** [s.replace(old, new)]: occurrences are found left to right and do not
    overlap; [skip] counts the characters of a match still to be dropped.
    An empty [old] matches before every character and at the end. *)
Fixpoint replace_from (old new : str) (skip : nat) (s : str) : str :=
  match s with
  | [] => match old with [] => new | _ :: _ => [] end
  | c :: rest =>
    match skip with
    | S k => replace_from old new k rest
    | O =>
      match old with
      | [] => new ++ c :: replace_from old new 0 rest
      | _ :: _ =>
        if startswith old s
        then new ++ replace_from old new (length old - 1) rest
        else c :: replace_from old new 0 rest
      end
    end
  end.

Definition replace (old new s : str) : str := replace_from old new 0 s.

(** The Unicode data CPython consults for a code point outside ASCII:
    its lowercase (one to three code points; capital sigma looks at the
    text before and after it) and whether it is white space. *)
Record unicode_db := {
  tolower_full : str -> N -> str -> str;
  isspace_wide : N -> bool
}.

Definition ascii_lower (c : N) : N :=
  if (65 <=? c)%N && (c <=? 90)%N then (c + 32)%N else c.

Definition ascii_isspace (c : N) : bool :=
  ((9 <=? c)%N && (c <=? 13)%N) || ((28 <=? c)%N && (c <=? 32)%N).

Section WithUnicode.
Variable U : unicode_db.

Definition isspace (c : N) : bool :=
  if (c <? 128)%N then ascii_isspace c else isspace_wide U c.

(** [s.lower()], character by character; [before] is the text already
    passed. *)
Fixpoint lower_from (before s : str) : str :=
  match s with
  | [] => []
  | c :: rest =>
    (if (c <? 128)%N then [ascii_lower c] else tolower_full U before c rest)
      ++ lower_from (before ++ [c]) rest
  end.

Definition lower (s : str) : str := lower_from [] s.

Fixpoint lstrip (s : str) : str :=
  match s with
  | [] => []
  | c :: rest => if isspace c then lstrip rest else s
  end.

Fixpoint rstrip (s : str) : str :=
  match s with
  | [] => []
  | c :: rest =>
    match rstrip rest with
    | [] => if isspace c then [] else [c]
    | kept => c :: kept
    end
  end.

(** [s.strip()] with no argument: white space goes from both ends. *)
Definition strip (s : str) : str := rstrip (lstrip s).
End WithUnicode.

(** Tables that leave every code point outside ASCII alone; enough to run
    the code on ASCII text, where the tables are never consulted. *)
Definition ascii_only : unicode_db :=
  {| tolower_full := fun _ c _ => [c]; isspace_wide := fun _ => false |}.

End PyStr.
Import PyStr.


(** ** Time *)

(** A [datetime] in microseconds; a [timedelta] is a difference of two. *)
Abbreviation datetime := Z.
Abbreviation timedelta := Z.

Definition microseconds_per_second : Z := 1000000.
Definition microseconds_per_day : Z := 86400 * microseconds_per_second.

(** [timedelta.seconds]: Python keeps a timedelta as days, seconds and
    microseconds with [0 <= seconds < 86400] and [0 <= microseconds < 10^6]
    (days alone may be negative); the attribute is the middle field, not the
    length of the interval. *)
Definition seconds (d : timedelta) : Z :=
  (d mod microseconds_per_day) / microseconds_per_second.

(** ** Exceptions *)

Inductive exn : Type :=
| KeyError (key : str)
| UnicodeEncodeError (text : str).

Inductive outcome (A : Type) : Type :=
| Return (a : A)
| Raise (e : exn).
Arguments Return {A} a.
Arguments Raise {A} e.

#[global] Instance outcome_ret : MRet outcome := fun A a => Return a.
#[global] Instance outcome_bind : MBind outcome := fun A B f m =>
  match m with
  | Return a => f a
  | Raise e => Raise e
  end.

(** ** Dictionaries *)

(** [d[key]] *)
Definition dict_getitem (key : str) (d : gmap str datetime) : outcome datetime :=
  match d !! key with
  | Some v => Return v
  | None => Raise (KeyError key)
  end.

(** [del d[key]] *)
Definition dict_delitem (key : str) (d : gmap str datetime) : outcome (gmap str datetime) :=
  match d !! key with
  | Some _ => Return (delete key d)
  | None => Raise (KeyError key)
  end.

(** [key in d] *)
Definition dict_contains (key : str) (d : gmap str datetime) : bool :=
  bool_decide (is_Some (d !! key)).

(** ** class WhatsAppBot *)

(** The fields the responder touches ([client] is only used by the send
    endpoint). *)
Record WhatsAppBot : Type := {
  user_sessions : gmap str datetime;
  last_cleanup : datetime
}.

(** [__init__] *)
Definition WhatsAppBot_init (now : datetime) : WhatsAppBot :=
  {| user_sessions := ∅; last_cleanup := now |}.

(** The first loop of [cleanup_old_sessions]: the keys to delete. *)
Definition collect_old (now : datetime) (items : list (str * datetime)) : list str :=
  foldl (fun to_delete item =>
           if bool_decide (300 < seconds (now - item.2))
           then to_delete ++ [item.1] else to_delete)
        [] items.

(** The second loop: [for key in to_delete: del self.user_sessions[key]]. *)
Fixpoint delete_all (to_delete : list str) (d : gmap str datetime)
  : outcome (gmap str datetime) :=
  match to_delete with
  | [] => Return d
  | key :: rest => d' ← dict_delitem key d; delete_all rest d'
  end.

Definition cleanup_old_sessions (now : datetime) (self : WhatsAppBot)
  : outcome WhatsAppBot :=
  if bool_decide (300 < seconds (now - last_cleanup self)) then
    let to_delete := collect_old now (map_to_list (user_sessions self)) in
    sessions ← delete_all to_delete (user_sessions self);
    mret {| user_sessions := sessions; last_cleanup := now |}
  else mret self.

(** The canned replies. *)
Definition get_welcome_message : str := lit "🤖 **Welcome!** 🎉

I'm your virtual assistant. How can I help?

📋 **Quick Options:**
1. View Menu/Products
2. Book Appointment/Order
3. Contact Information  
4. Business Hours

Type the number or ask your question!".

Definition get_default_response : str := lit "🤖 Thanks for your message! 💌

Please choose:
1. MENU - View products/services
2. BOOKING - Make appointment
3. CONTACT - Get details
4. TIME - Business hours

Or ask directly!".

Definition get_menu : str := lit "📋 **OUR MENU** 📋

🍔 **FOOD ITEMS:**
• Burger - ₹120
• Pizza - ₹250  
• Fries - ₹80
• Cold Drink - ₹50

💇 **SERVICES:**
• Haircut - ₹300
• Facial - ₹500
• Massage - ₹700

💄 **PRODUCTS:**
• Shampoo - ₹200
• Cream - ₹150

📅 *Type 'BOOKING' to order!*".

Definition get_booking_info : str := lit "📅 **BOOK AN APPOINTMENT**

🕒 **Hours:** Mon-Sat: 9AM - 9PM, Sun: 10AM - 6PM
📍 **Location:** 123 Business Street
📞 **Call:** +92-XXXXX-XXXXX
💻 **Online:** https://your-business.com/bookings".

Definition get_contact_info : str := lit "📞 **CONTACT US**

📍 **Address:** 123 Business Street, City
📱 **Phone:** +92-XXXXX-XXXXX
📧 **Email:** info@business.com
🌐 **Website:** https://your-business.com
🕒 **Hours:** Mon-Sat: 9AM-9PM, Sun: 10AM-6PM".

Definition get_business_hours : str := lit "🕒 **BUSINESS HOURS**

• Mon-Fri: 9:00 AM - 9:00 PM
• Saturday: 9:00 AM - 9:00 PM  
• Sunday: 10:00 AM - 6:00 PM

📞 **For special timing:** +92-XXXXX-XXXXX".

(** [any(word in message for word in words)] *)
Definition any_in (words : list str) (message : str) : bool :=
  existsb (fun word => contains word message) words.

(** The if/elif chain under [# Response logic]. *)
Definition response_logic (message : str) : str :=
  if any_in [lit "menu"; lit "1"; lit "khana"; lit "rate"; lit "price"; lit "charges"] message
  then get_menu
  else if any_in [lit "booking"; lit "appointment"; lit "2"; lit "order"; lit "delivery"] message
  then get_booking_info
  else if any_in [lit "contact"; lit "3"; lit "number"; lit "phone"; lit "address"] message
  then get_contact_info
  else if any_in [lit "time"; lit "hour"; lit "4"; lit "baje"; lit "open"; lit "close"] message
  then get_business_hours
  else if any_in [lit "hello"; lit "hi"; lit "hey"; lit "salam"; lit "assalam"] message
  then get_welcome_message
  else if any_in [lit "thanks"; lit "thank"; lit "shukriya"] message
  then lit "You're welcome! 😊 Let me know if you need anything else!"
  else if any_in [lit "bye"; lit "goodbye"; lit "allah hafiz"] message
  then lit "Thank you for visiting! 🙏
Allah Hafiz!"
  else get_default_response.

Section Responder.
Variable U : unicode_db.

(** [generate_response], without what it prints ([Console.generate_response]
    has the prints): [None] is Python's [None] (the reply is withheld);
    [now] is the clock as the sweep reads it, [current_time] as the
    duplicate check reads it just after. *)
Definition generate_response (now current_time : datetime)
    (message from_number : str) (self : WhatsAppBot)
  : outcome (option str * WhatsAppBot) :=
  let message := strip U (lower U message) in
  self ← cleanup_old_sessions now self;
  let user_key := from_number in
  duplicate ←
    (if dict_contains user_key (user_sessions self) then
       last_time ← dict_getitem user_key (user_sessions self);
       let time_diff := seconds (current_time - last_time) in
       mret (bool_decide (time_diff < 2))
     else mret false);
  if (duplicate : bool) then mret (None, self) else
  let self := {| user_sessions := <[user_key := current_time]> (user_sessions self);
                 last_cleanup := last_cleanup self |} in
  mret (Some (response_logic message), self).

(** ** The webhook *)

(** Python's truth value of a string, and of a string or [None]. *)
Definition truthy (s : str) : bool :=
  match s with [] => false | _ :: _ => true end.

Definition truthy_opt (s : option str) : bool :=
  match s with None => false | Some s => truthy s end.

(** [request.form.get(key, default)]: the first value posted under [key]. *)
Fixpoint form_get (key default : str) (form : list (str * str)) : str :=
  match form with
  | [] => default
  | (k, v) :: rest => if bool_decide (k = key) then v else form_get key default rest
  end.

(** A TwiML [MessagingResponse] is the list of its [<Message>] bodies;
    [str(...)] renders it as XML, which stays abstract here. *)
Inductive response_body : Type :=
| PlainText (text : str)
| TwiML (messages : list str).

(** What Flask sends: a view that returns a string alone answers 200. *)
Record http_response : Type := {
  body : response_body;
  status : Z
}.

(** [handle_webhook]; [whatsapp_bot] is the module's one bot object. *)
Definition handle_webhook (now current_time : datetime)
    (form : list (str * str)) (whatsapp_bot : WhatsAppBot)
  : outcome (http_response * WhatsAppBot) :=
  let from_number := replace (lit "whatsapp:") [] (form_get (lit "From") [] form) in
  let message_body := form_get (lit "Body") [] form in
  if negb (truthy from_number) || negb (truthy message_body) then
    mret ({| body := PlainText (lit "Missing data"); status := 400 |}, whatsapp_bot)
  else
    r ← generate_response now current_time message_body from_number whatsapp_bot;
    let response_text := r.1 in
    let whatsapp_bot := r.2 in
    if negb (truthy_opt response_text) then
      mret ({| body := TwiML []; status := 200 |}, whatsapp_bot)
    else
      mret ({| body := TwiML [default [] response_text]; status := 200 |}, whatsapp_bot).

(** ** A run of messages *)

Record call : Type := {
  sweep_clock : datetime;
  check_clock : datetime;
  text : str;
  sender : str
}.

(** The bot answers the calls one after the other. *)
Fixpoint respond_all (calls : list call) (bot : WhatsAppBot)
  : outcome (list (option str) * WhatsAppBot) :=
  match calls with
  | [] => mret ([], bot)
  | c :: rest =>
    r ← generate_response (sweep_clock c) (check_clock c) (text c) (sender c) bot;
    rs ← respond_all rest r.2;
    mret (r.1 :: rs.1, rs.2)
  end.

End Responder.

(** ** The responder with its console output *)

Module Console.

(** A lone surrogate, which UTF-8 cannot encode. *)
Definition is_surrogate (c : N) : bool := (55296 <=? c)%N && (c <=? 57343)%N.

Definition encodable (text : str) : bool :=
  forallb (fun c => negb (is_surrogate c)) text.

(** [print(text)] on a console that encodes as UTF-8: what is written is
    not kept, but text that cannot be encoded raises. *)
Definition print (text : str) : outcome unit :=
  if encodable text then Return tt else Raise (UnicodeEncodeError text).

(** [str(n)] for a length. *)
Definition str_of_nat (n : nat) : str := lit (NilEmpty.string_of_uint (Nat.to_uint n)).

Definition cleanup_old_sessions (now : datetime) (self : WhatsAppBot)
  : outcome WhatsAppBot :=
  if bool_decide (300 < seconds (now - last_cleanup self)) then
    let to_delete := collect_old now (map_to_list (user_sessions self)) in
    sessions ← delete_all to_delete (user_sessions self);
    _ ← print (lit "🧹 Cleaned " ++ str_of_nat (length to_delete) ++ lit " old sessions");
    mret {| user_sessions := sessions; last_cleanup := now |}
  else mret self.

Section WithUnicode.
Variable U : unicode_db.

Definition generate_response (now current_time : datetime)
    (message from_number : str) (self : WhatsAppBot)
  : outcome (option str * WhatsAppBot) :=
  let message := strip U (lower U message) in
  self ← cleanup_old_sessions now self;
  let user_key := from_number in
  duplicate ←
    (if dict_contains user_key (user_sessions self) then
       last_time ← dict_getitem user_key (user_sessions self);
       let time_diff := seconds (current_time - last_time) in
       if bool_decide (time_diff < 2) then
         _ ← print (lit "⚠️ Duplicate message from " ++ from_number ++ lit ", ignoring");
         mret true
       else mret false
     else mret false);
  if (duplicate : bool) then mret (None, self) else
  let self := {| user_sessions := <[user_key := current_time]> (user_sessions self);
                 last_cleanup := last_cleanup self |} in
  mret (Some (response_logic message), self).

End WithUnicode.

End Console.

(** ** Reference definitions *)

(** What a sweep at [now] leaves of the session store, as a filter. *)
Definition swept (now : datetime) (d : gmap str datetime) : gmap str datetime :=
  filter (fun kv => ¬ 300 < seconds (now - kv.2)) d.

(** The bot after [cleanup_old_sessions], when nothing is raised. *)
Definition after_cleanup (now : datetime) (self : WhatsAppBot) : WhatsAppBot :=
  if bool_decide (300 < seconds (now - last_cleanup self))
  then {| user_sessions := swept now (user_sessions self); last_cleanup := now |}
  else self.

(** The bot after an accepted message. *)
Definition touched (user_key : str) (current_time : datetime) (self : WhatsAppBot)
  : WhatsAppBot :=
  {| user_sessions := <[user_key := current_time]> (user_sessions self);
     last_cleanup := last_cleanup self |}.

(** The keyword categories in the words of the specification (section 4.1
    for the order, section 6 for the trigger sets, written in the order the
    specification lists them). *)
Definition spec_categories : list (list str * str) :=
  [ ([lit "menu"; lit "1"; lit "rate"; lit "price"; lit "charges"; lit "khana"],
     get_menu);
    ([lit "booking"; lit "appointment"; lit "2"; lit "order"; lit "delivery"],
     get_booking_info);
    ([lit "contact"; lit "3"; lit "number"; lit "phone"; lit "address"],
     get_contact_info);
    ([lit "time"; lit "hour"; lit "4"; lit "open"; lit "close"; lit "baje"],
     get_business_hours);
    ([lit "hello"; lit "hi"; lit "hey"; lit "salam"; lit "assalam"],
     get_welcome_message);
    ([lit "thanks"; lit "thank"; lit "shukriya"],
     lit "You're welcome! 😊 Let me know if you need anything else!");
    ([lit "bye"; lit "goodbye"; lit "allah hafiz"],
     lit "Thank you for visiting! 🙏
Allah Hafiz!") ].

(** [w] occurs in [s]: some text, then [w], then the rest. *)
Definition occurs (w s : str) : Prop := ∃ a b, s = a ++ w ++ b.

(** First match wins: the reply of the first category one of whose triggers
    the message contains, the default text when there is none. *)
Fixpoint spec_first_match (categories : list (list str * str)) (fallback message : str)
  : str :=
  match categories with
  | [] => fallback
  | (triggers, reply) :: rest =>
    if existsb (fun trigger => contains trigger message) triggers
    then reply
    else spec_first_match rest fallback message
  end.

(** The same in terms of what occurs in the message, with no test to run:
    [spec_reply message categories fallback reply] says that [reply] is the
    reply of the first category one of whose triggers occurs in [message],
    no trigger of an earlier category occurring in it, or is [fallback] when
    no trigger of any category occurs. *)
Inductive spec_reply (message : str) : list (list str * str) → str → str → Prop :=
| spec_reply_none (fallback : str) :
    spec_reply message [] fallback fallback
| spec_reply_here (triggers : list str) (reply : str)
    (rest : list (list str * str)) (fallback : str) :
    Exists (fun trigger => occurs trigger message) triggers →
    spec_reply message ((triggers, reply) :: rest) fallback reply
| spec_reply_later (triggers : list str) (skipped : str)
    (rest : list (list str * str)) (fallback reply : str) :
    Forall (fun trigger => ¬ occurs trigger message) triggers →
    spec_reply message rest fallback reply →
    spec_reply message ((triggers, skipped) :: rest) fallback reply.

(** The texts [generate_response] can return. *)
Definition canned_replies : list str :=
  [ get_menu; get_booking_info; get_contact_info; get_business_hours;
    get_welcome_message;
    lit "You're welcome! 😊 Let me know if you need anything else!";
    lit "Thank you for visiting! 🙏
Allah Hafiz!";
    get_default_response ].


(** The clock reading [n] seconds after the origin. *)
Definition at_second (n : Z) : datetime := n * microseconds_per_second.

(** A message as the runs below write it: both clock readings agree. *)
Definition message_at (n : Z) (from_number message : str) : call :=
  {| sweep_clock := at_second n; check_clock := at_second n;
     text := message; sender := from_number |}.

(** A keyword that normalisation cannot break: ASCII throughout, and no
    white space at either end. *)
Definition plain_keyword (w : str) : bool :=
  forallb (fun c => (c <? 128)%N) w &&
  match head w, last w with
  | Some a, Some z => negb (ascii_isspace a) && negb (ascii_isspace z)
  | _, _ => false
  end.

(** ** The routes and the send endpoint *)

Inductive http_method : Type := GET | POST.

(** What [jsonify] is given: the JSON values the endpoints build. *)
#[warnings="-register-all"] Inductive json : Type :=
| JBool (b : bool)
| JString (s : str)
| JObject (members : list (str * json)).

(** A response of any route: text or TwiML as before, or JSON. *)
Inductive flask_body : Type :=
| Body (b : response_body)
| Json (j : json).

Record flask_response : Type := {
  content : flask_body;
  code : Z
}.

Section Routes.
Variable U : unicode_db.

(** [/webhook]: a POST is an inbound message, a GET the verification
    handshake ([request.args] is read like [request.form]). *)
Definition webhook (method : http_method) (args form : list (str * str))
    (now current_time : datetime) (whatsapp_bot : WhatsAppBot)
  : outcome (http_response * WhatsAppBot) :=
  match method with
  | POST => handle_webhook U now current_time form whatsapp_bot
  | GET =>
    let challenge := form_get (lit "hub.challenge") [] args in
    mret ({| body := PlainText (if truthy challenge then challenge
                                else lit "WhatsApp Webhook Ready");
             status := 200 |}, whatsapp_bot)
  end.

(** [/]: a POST is handled as on [/webhook], a GET gets the status
    descriptor. *)
Definition handle_all (method : http_method) (form : list (str * str))
    (now current_time : datetime) (whatsapp_bot : WhatsAppBot)
  : outcome (flask_response * WhatsAppBot) :=
  match method with
  | POST =>
    r ← handle_webhook U now current_time form whatsapp_bot;
    mret ({| content := Body (body r.1); code := status r.1 |}, r.2)
  | GET =>
    mret ({| content :=
               Json (JObject
                 [ (lit "message", JString (lit "WhatsApp Business Bot 🚀"));
                   (lit "status", JString (lit "active"));
                   (lit "webhook", JString (lit "Use /webhook for WhatsApp messages"));
                   (lit "test",
                    JString (lit "Send 'hello' to your Twilio WhatsApp number")) ]);
             code := 200 |}, whatsapp_bot)
  end.

End Routes.

(** The arguments of [twilio_client.messages.create]. *)
Record outbound_message : Type := {
  msg_body : str;
  msg_from : option str;
  msg_to : str
}.

(** What the call does: a message object with its [sid], or an exception
    with its text. *)
Inductive create_result : Type :=
| Created (sid : str)
| CreateFailed (description : str).

(** [/api/send], from the point where [request.json] has been read.
    [request_json] is the value of that expression: a JSON object, taken
    with string values, or [None], which is what a body holding the JSON
    value [null] gives.  A request for which reading [request.json] raises
    (a body that is not JSON: Flask answers it itself) does not come this
    far and is not part of the function.  [twilio_client] is [None] when the
    client could not be built at start-up, and then [twilio_client.messages]
    raises inside the [try].  Beside the response the function gives the
    calls it made to the provider. *)
Definition send_message (twilio_client : option (outbound_message → create_result))
    (TWILIO_WHATSAPP_NUMBER : option str) (request_json : option (gmap str str))
  : flask_response * list outbound_message :=
  let data := default ∅ request_json in
  let phone := data !! lit "phone" in
  let message := data !! lit "message" in
  if negb (truthy_opt phone) || negb (truthy_opt message) then
    ({| content := Json (JObject [(lit "error", JString (lit "Phone and message required"))]);
        code := 400 |}, [])
  else
    match twilio_client with
    | None =>
      ({| content :=
            Json (JObject
              [(lit "error",
                JString (lit "'NoneType' object has no attribute 'messages'"))]);
          code := 500 |}, [])
    | Some create =>
      let request := {| msg_body := default [] message;
                        msg_from := TWILIO_WHATSAPP_NUMBER;
                        msg_to := lit "whatsapp:" ++ default [] phone |} in
      match create request with
      | Created sid =>
        ({| content := Json (JObject [(lit "success", JBool true);
                                      (lit "sid", JString sid)]);
            code := 200 |}, [request])
      | CreateFailed description =>
        ({| content := Json (JObject [(lit "error", JString description)]);
            code := 500 |}, [request])
      end
    end.

(** The replies a run gave, without the withheld ones. *)
Definition answered (rs : list (option str)) : list str := omap id rs.

(** * Results *)

(** ** The sweep never raises *)

Lemma collect_old_app (now : datetime) items acc :
  foldl (fun to_delete (item : str * datetime) =>
           if bool_decide (300 < seconds (now - item.2))
           then to_delete ++ [item.1] else to_delete) acc items
  = acc ++ (filter (fun kv : str * datetime => 300 < seconds (now - kv.2)) items).*1.
Proof.
  revert acc. induction items as [|[k t] items IH]; intros acc; simpl.
  - by rewrite app_nil_r.
  - rewrite IH, filter_cons. simpl. case_bool_decide; case_decide; try done.
    by rewrite <- app_assoc.
Qed.

Lemma collect_old_filter (now : datetime) items :
  collect_old now items
  = (filter (fun kv : str * datetime => 300 < seconds (now - kv.2)) items).*1.
Proof. unfold collect_old. by rewrite collect_old_app. Qed.

Lemma elem_of_collect_old (now : datetime) (d : gmap str datetime) (k : str) :
  k ∈ collect_old now (map_to_list d)
  ↔ ∃ t, d !! k = Some t ∧ 300 < seconds (now - t).
Proof.
  rewrite collect_old_filter, list_elem_of_fmap. split.
  - intros [[k' t] [-> [Hold Hin]%list_elem_of_filter]].
    apply elem_of_map_to_list in Hin. eauto.
  - intros (t & Hk & Hold). exists (k, t). split; [done|].
    apply list_elem_of_filter. split; [done|]. by apply elem_of_map_to_list.
Qed.

Lemma NoDup_collect_old (now : datetime) (d : gmap str datetime) :
  NoDup (collect_old now (map_to_list d)).
Proof.
  rewrite collect_old_filter.
  eapply sublist_NoDup; [apply (NoDup_fst_map_to_list d)|].
  apply fmap_sublist, sublist_filter.
Qed.

Lemma delete_all_returns (keys : list str) (d : gmap str datetime) :
  NoDup keys → (∀ k, k ∈ keys → is_Some (d !! k)) →
  ∃ d', delete_all keys d = Return d'
        ∧ ∀ k, d' !! k = if decide (k ∈ keys) then None else d !! k.
Proof.
  revert d. induction keys as [|key keys IH]; intros d Hnd Hin.
  - exists d. split; [done|]. intros k. by rewrite decide_False by apply not_elem_of_nil.
  - apply NoDup_cons in Hnd as [Hfresh Hnd].
    destruct (Hin key) as [v Hv]; [by left|].
    destruct (IH (delete key d) Hnd) as (d' & Hrun & Hd').
    { intros k Hk. rewrite lookup_delete_ne by (intros ->; done).
      apply Hin. by right. }
    exists d'. split.
    { cbn. unfold dict_delitem. by rewrite Hv. }
    intros k. rewrite Hd'.
    destruct (decide (k = key)) as [->|Hne].
    + rewrite decide_False by done. rewrite decide_True by (by left).
      apply lookup_delete_eq.
    + rewrite lookup_delete_ne by done.
      destruct (decide (k ∈ keys)) as [Hk|Hk].
      * rewrite decide_True by (by right). done.
      * rewrite decide_False; [done|]. by intros [?|?]%elem_of_cons.
Qed.

Lemma lookup_swept (now : datetime) (d : gmap str datetime) (k : str) :
  swept now d !! k
  = match d !! k with
    | Some t => if bool_decide (300 < seconds (now - t)) then None else Some t
    | None => None
    end.
Proof.
  unfold swept. destruct (d !! k) as [t|] eqn:Hk.
  - case_bool_decide.
    + apply map_lookup_filter_None. right. intros t' Ht'. simpl. naive_solver.
    + apply map_lookup_filter_Some. split; [done|]. simpl. lia.
  - apply map_lookup_filter_None. by left.
Qed.

(** [cleanup_old_sessions] returns, and what it returns. *)
Lemma cleanup_old_sessions_returns (now : datetime) (self : WhatsAppBot) :
  cleanup_old_sessions now self = Return (after_cleanup now self).
Proof.
  unfold cleanup_old_sessions, after_cleanup. case_bool_decide; [|done].
  destruct (delete_all_returns (collect_old now (map_to_list (user_sessions self)))
              (user_sessions self)) as (d' & -> & Hd').
  - apply NoDup_collect_old.
  - intros k (t & Hk & _)%elem_of_collect_old. eauto.
  - simpl. do 2 f_equal. apply map_eq. intros k.
    rewrite Hd', lookup_swept. case_decide as Hin.
    + apply elem_of_collect_old in Hin as (t & -> & Hold).
      by rewrite bool_decide_eq_true_2.
    + destruct (user_sessions self !! k) as [t|] eqn:Hk; [|done].
      rewrite bool_decide_eq_false_2; [done|].
      intros Hold. apply Hin, elem_of_collect_old. eauto.
Qed.

(** ** The seconds field of an interval *)

Lemma seconds_range (d : timedelta) : 0 <= seconds d < 86400.
Proof.
  unfold seconds, microseconds_per_day, microseconds_per_second.
  Z.div_mod_to_equations. lia.
Qed.

(** Within a day the field is the interval in whole seconds. *)
Lemma seconds_within_a_day (d : timedelta) :
  0 <= d < microseconds_per_day → seconds d = d / microseconds_per_second.
Proof.
  intros Hd. unfold seconds. by rewrite Z.mod_small.
Qed.

(** It never exceeds the interval, when that is not negative. *)
Lemma seconds_le_elapsed (d : timedelta) :
  0 <= d → seconds d * microseconds_per_second <= d.
Proof.
  unfold seconds, microseconds_per_day, microseconds_per_second.
  intros Hd. Z.div_mod_to_equations. lia.
Qed.

(** A whole number of days is invisible to it. *)
Lemma seconds_plus_days (d n : Z) :
  seconds (d + n * microseconds_per_day) = seconds d.
Proof. unfold seconds. by rewrite Z.mod_add. Qed.

Section ResponderFacts.
Variable U : unicode_db.

(** ** The responder never raises *)

Lemma generate_response_returns (now current_time : datetime)
    (message from_number : str) (self : WhatsAppBot) :
  generate_response U now current_time message from_number self
  = Return
      (let swept_bot := after_cleanup now self in
       let accepted :=
         (Some (response_logic (strip U (lower U message))),
          touched from_number current_time swept_bot) in
       match user_sessions swept_bot !! from_number with
       | Some last_time =>
         if bool_decide (seconds (current_time - last_time) < 2)
         then (None, swept_bot) else accepted
       | None => accepted
       end).
Proof.
  unfold generate_response. rewrite cleanup_old_sessions_returns. cbn.
  unfold dict_contains, dict_getitem.
  destruct (user_sessions (after_cleanup now self) !! from_number) as [t|] eqn:Hk.
  - rewrite bool_decide_eq_true_2 by eauto. cbn. by case_bool_decide.
  - rewrite bool_decide_eq_false_2 by (by intros [? ?]). done.
Qed.

(** A sweep only removes entries: what is left of a sender's entry is the
    entry itself. *)
Lemma after_cleanup_lookup (now : datetime) (self : WhatsAppBot) (k : str) (t : datetime) :
  user_sessions (after_cleanup now self) !! k = Some t →
  user_sessions self !! k = Some t.
Proof.
  unfold after_cleanup. case_bool_decide; [|done]. simpl.
  rewrite lookup_swept. destruct (user_sessions self !! k); [|done].
  by case_bool_decide.
Qed.

Lemma after_cleanup_absent (now : datetime) (self : WhatsAppBot) (k : str) :
  user_sessions self !! k = None →
  user_sessions (after_cleanup now self) !! k = None.
Proof.
  unfold after_cleanup. intros Hk. case_bool_decide; [|done]. simpl.
  by rewrite lookup_swept, Hk.
Qed.

Lemma after_cleanup_same_or_gone (now : datetime) (self : WhatsAppBot) (k : str) :
  user_sessions (after_cleanup now self) !! k = None
  ∨ user_sessions (after_cleanup now self) !! k = user_sessions self !! k.
Proof.
  destruct (user_sessions (after_cleanup now self) !! k) as [t|] eqn:Hk; [|by left].
  right. symmetry. by eapply after_cleanup_lookup.
Qed.

End ResponderFacts.

(** ** Substrings, lowercase and white space *)

Lemma startswith_spec (w s : str) : startswith w s = true ↔ ∃ b, s = w ++ b.
Proof.
  revert s. induction w as [|a w IH]; intros s.
  - split; [intros _; by exists s | done].
  - destruct s as [|c s].
    + split; [done | intros [b Hb]; discriminate].
    + cbn [startswith]. rewrite andb_true_iff, N.eqb_eq, IH. split.
      * intros [-> [b ->]]. by exists b.
      * intros [b [= -> ->]]. split; [done|by exists b].
Qed.

(** [w in s] says that [w] occurs in [s]. *)
Lemma contains_occurs (w s : str) : contains w s = true ↔ occurs w s.
Proof.
  unfold occurs. induction s as [|c s IH]; cbn [contains].
  - rewrite orb_false_r, startswith_spec. split.
    + intros [b Hb]. by exists [], b.
    + intros (a & b & Hab). destruct a; [by exists b|discriminate].
  - rewrite orb_true_iff, startswith_spec, IH. split.
    + intros [[b ->]|(a & b & ->)]; [by exists [], b | by exists (c :: a), b].
    + intros (a & b & Hab). destruct a as [|c' a].
      * left. by exists b.
      * right. injection Hab as -> ->. by exists a, b.
Qed.

Lemma any_in_intro (words : list str) (w message : str) :
  w ∈ words → contains w message = true → any_in words message = true.
Proof.
  intros Hw Hin. unfold any_in. apply existsb_exists.
  exists w. split; [by apply list_elem_of_In|done].
Qed.

Lemma any_in_Permutation (l1 l2 : list str) (message : str) :
  l1 ≡ₚ l2 → any_in l1 message = any_in l2 message.
Proof.
  unfold any_in. induction 1 as [|x l l' _ IH|x y l|l l' l'' _ IH1 _ IH2]; cbn [existsb].
  - done.
  - by rewrite IH.
  - by rewrite !orb_assoc, (orb_comm (contains y message)).
  - congruence.
Qed.

Lemma ascii_lower_below (c : N) : (ascii_lower c < 128)%N → (c < 128)%N.
Proof.
  unfold ascii_lower. destruct ((65 <=? c)%N && (c <=? 90)%N) eqn:Hc; [|done].
  apply andb_true_iff in Hc as [_ Hc%N.leb_le]. lia.
Qed.

Section Normalisation.
Variable U : unicode_db.

(** ASCII text is lowered letter by letter, whatever surrounds it. *)
Lemma lower_from_ascii (before w post : str) :
  Forall (fun c => (c < 128)%N) w →
  lower_from U before (w ++ post)
  = (ascii_lower <$> w) ++ lower_from U (before ++ w) post.
Proof.
  intros Hw. revert before. induction Hw as [|c w Hc _ IH]; intros before.
  - by rewrite app_nil_r.
  - cbn [app lower_from fmap list_fmap]. apply N.ltb_lt in Hc. rewrite Hc.
    rewrite IH, <- app_assoc. done.
Qed.

Lemma lower_occurs (pre w post : str) :
  Forall (fun c => (c < 128)%N) w →
  occurs (ascii_lower <$> w) (lower U (pre ++ w ++ post)).
Proof.
  intros Hw. unfold lower. generalize (@nil N) as before.
  induction pre as [|c pre IH]; intros before.
  - cbn [app]. rewrite lower_from_ascii by done. by exists [], (lower_from U (before ++ w) post).
  - cbn [app lower_from]. destruct (IH (before ++ [c])) as (x & y & ->).
    eexists (_ ++ x), y. by rewrite <- app_assoc.
Qed.

Lemma lstrip_occurs (w s : str) (a : N) (w' : str) :
  w = a :: w' → isspace U a = false → occurs w s → occurs w (lstrip U s).
Proof.
  intros -> Ha. induction s as [|c s IH]; [done|].
  cbn [lstrip]. destruct (isspace U c) eqn:Hc; [|done].
  intros (x & y & Hxy). destruct x as [|c' x].
  - injection Hxy as -> _. congruence.
  - injection Hxy as -> ->. apply IH. by exists x, y.
Qed.

Lemma rstrip_app (x y : str) :
  rstrip U (x ++ y)
  = match rstrip U y with [] => rstrip U x | _ :: _ => x ++ rstrip U y end.
Proof.
  induction x as [|a x IH].
  - cbn [app rstrip]. by destruct (rstrip U y).
  - cbn [app rstrip]. rewrite IH. destruct (rstrip U y) as [|n l] eqn:Hy; [done|].
    by destruct x.
Qed.

Lemma rstrip_occurs (w s w0 : str) (z : N) :
  w = w0 ++ [z] → isspace U z = false → occurs w s → occurs w (rstrip U s).
Proof.
  intros -> Hz (x & y & ->).
  assert (∃ k, rstrip U ((w0 ++ [z]) ++ y) = (w0 ++ [z]) ++ k) as [k Hk].
  { rewrite rstrip_app. destruct (rstrip U y) as [|n l].
    - exists []. rewrite app_nil_r, rstrip_app. cbn [rstrip]. by rewrite Hz.
    - by exists (n :: l). }
  rewrite rstrip_app, Hk.
  destruct ((w0 ++ [z]) ++ k) as [|n l] eqn:Hnil; [by destruct w0|].
  rewrite <- Hnil. by exists x, k.
Qed.

(** A keyword that occurs in a text in whatever letter case still occurs
    in the normalised text. *)
Lemma keyword_survives_normalisation (keyword pre w post : str) :
  plain_keyword keyword = true →
  ascii_lower <$> w = keyword →
  contains keyword (strip U (lower U (pre ++ w ++ post))) = true.
Proof.
  unfold plain_keyword. intros [Hascii Hends]%andb_true_iff Hw.
  destruct (head keyword) as [a|] eqn:Hhead; [|done].
  destruct (last keyword) as [z|] eqn:Hlast; [|done].
  apply andb_true_iff in Hends as [Ha%negb_true_iff Hz%negb_true_iff].
  rewrite forallb_forall in Hascii.
  assert (Forall (fun c => (c < 128)%N) keyword) as Hkw.
  { apply Forall_forall. intros c Hc%list_elem_of_In. by apply N.ltb_lt, Hascii. }
  assert (Forall (fun c => (c < 128)%N) w) as Hlow.
  { rewrite <- Hw in Hkw. apply Forall_fmap in Hkw.
    eapply Forall_impl; [exact Hkw|]. intros c. apply ascii_lower_below. }
  assert (isspace U a = false ∧ isspace U z = false) as [Ha' Hz'].
  { rewrite Forall_forall in Hkw. unfold isspace. split.
    - assert (a < 128)%N as Hlt%N.ltb_lt; [|by rewrite Hlt].
      apply Hkw. destruct keyword; [done|]. injection Hhead as ->. by left.
    - assert (z < 128)%N as Hlt%N.ltb_lt; [|by rewrite Hlt].
      apply Hkw. apply last_Some in Hlast as [l ->]. apply elem_of_app. right. by left. }
  apply contains_occurs. unfold strip.
  apply last_Some in Hlast as [w0 Hw0].
  eapply rstrip_occurs; [exact Hw0|exact Hz'|].
  destruct keyword as [|a' keyword']; [done|]. injection Hhead as ->.
  eapply lstrip_occurs; [reflexivity|exact Ha'|].
  rewrite <- Hw. by apply lower_occurs.
Qed.

(** What [strip] leaves: the text between the leading and the trailing white
    space, which begins and ends with something else. *)
Lemma lstrip_spec (s : str) :
  ∃ l, s = l ++ lstrip U s ∧ Forall (fun c => isspace U c = true) l
       ∧ (∀ c, head (lstrip U s) = Some c → isspace U c = false).
Proof.
  induction s as [|c s (l & Hs & Hl & Hhead)].
  - exists []. by repeat split.
  - cbn [lstrip]. destruct (isspace U c) eqn:Hc.
    + exists (c :: l). split; [by rewrite Hs at 1|]. split; [by constructor|done].
    + exists []. split; [done|]. split; [done|]. by intros ? [= <-].
Qed.

Lemma rstrip_spec (s : str) :
  ∃ r, s = rstrip U s ++ r ∧ Forall (fun c => isspace U c = true) r
       ∧ (∀ c, last (rstrip U s) = Some c → isspace U c = false).
Proof.
  induction s as [|c s (r & Hs & Hr & Hlast)].
  - exists []. by repeat split.
  - cbn [rstrip]. destruct (rstrip U s) as [|n kept] eqn:Hkept.
    + destruct (isspace U c) eqn:Hc.
      * exists (c :: r). split; [by rewrite Hs at 1|]. split; [by constructor|done].
      * exists r. split; [by rewrite Hs at 1|]. split; [done|]. by intros ? [= <-].
    + exists r. split; [by rewrite Hs at 1|]. split; [done|].
      intros c' Hc'. apply Hlast. by destruct kept.
Qed.

Lemma lower_ascii (s : str) :
  Forall (fun c => (c < 128)%N) s → lower U s = ascii_lower <$> s.
Proof.
  intros Hs. unfold lower. rewrite <- (app_nil_r s) at 1.
  rewrite lower_from_ascii by done. apply app_nil_r.
Qed.

End Normalisation.

(** ** What the responder returns *)

Lemma chain_of_eight {A : Type} (b1 b2 b3 b4 b5 b6 b7 : bool) (x1 x2 x3 x4 x5 x6 x7 x8 : A) :
  (if b1 then x1 else if b2 then x2 else if b3 then x3 else if b4 then x4
   else if b5 then x5 else if b6 then x6 else if b7 then x7 else x8)
  ∈ [x1; x2; x3; x4; x5; x6; x7; x8].
Proof.
  destruct b1, b2, b3, b4, b5, b6, b7;
    repeat first [apply list_elem_of_here | apply list_elem_of_further].
Qed.

Lemma response_logic_canned (message : str) : response_logic message ∈ canned_replies.
Proof. apply chain_of_eight. Qed.

Lemma canned_replies_not_empty (reply : str) :
  reply ∈ canned_replies → truthy reply = true.
Proof.
  assert (Forall (fun r => truthy r = true) canned_replies) as Hall.
  { apply Forall_forall. intros r Hr%list_elem_of_In.
    assert (forallb truthy canned_replies = true) as Hb by (vm_compute; reflexivity).
    rewrite forallb_forall in Hb. by apply Hb. }
  rewrite Forall_forall in Hall. apply Hall.
Qed.

(** ** Matching *)

Lemma response_logic_first_match (message : str) :
  response_logic message
  = spec_first_match spec_categories get_default_response message.
Proof.
  unfold response_logic, spec_categories. cbn [spec_first_match].
  assert (∀ a b c d e f : str, [a; b; c; d; e; f] ≡ₚ [a; b; d; e; f; c]) as Hperm.
  { intros. do 2 apply perm_skip. apply (Permutation_cons_append [d; e; f]). }
  pose proof (any_in_Permutation _ _ message
    (Hperm (lit "menu") (lit "1") (lit "khana") (lit "rate") (lit "price")
           (lit "charges"))) as Hmenu.
  assert (∀ a b c d e f : str, [a; b; c; d; e; f] ≡ₚ [a; b; c; e; f; d]) as Hperm'.
  { intros. do 3 apply perm_skip. apply (Permutation_cons_append [e; f]). }
  pose proof (any_in_Permutation _ _ message
    (Hperm' (lit "time") (lit "hour") (lit "4") (lit "baje") (lit "open")
            (lit "close"))) as Hhours.
  rewrite Hmenu, Hhours. reflexivity.
Qed.

(** The executable first match meets the description by occurrence. *)
Lemma spec_first_match_reply (categories : list (list str * str))
    (fallback message : str) :
  spec_reply message categories fallback (spec_first_match categories fallback message).
Proof.
  induction categories as [|[triggers reply] rest IH]; cbn [spec_first_match].
  - constructor.
  - destruct (existsb (fun trigger => contains trigger message) triggers) eqn:Hany.
    + apply spec_reply_here. apply Exists_exists.
      apply existsb_exists in Hany as (w & Hw%list_elem_of_In & Hin%contains_occurs).
      by exists w.
    + apply spec_reply_later; [|exact IH]. apply Forall_forall. intros w Hw Hocc.
      assert (existsb (fun trigger => contains trigger message) triggers = true)
        as Habs; [|congruence].
      apply existsb_exists. exists w. split; [by apply list_elem_of_In|].
      by apply contains_occurs.
Qed.

(** And the description leaves one reply only. *)
Lemma spec_reply_functional (message : str) (categories : list (list str * str))
    (fallback r1 r2 : str) :
  spec_reply message categories fallback r1 →
  spec_reply message categories fallback r2 →
  r1 = r2.
Proof.
  induction 1 as [fb|triggers reply rest fb Hhere|triggers skipped rest fb reply Hnone _ IH];
    inversion 1 as [|? ? ? ? Hhere'|? ? ? ? ? Hnone' Hrest']; subst; try done.
  - apply Exists_exists in Hhere as (w & Hw & Hocc).
    rewrite Forall_forall in Hnone'. by destruct (Hnone' w Hw).
  - apply Exists_exists in Hhere' as (w & Hw & Hocc).
    rewrite Forall_forall in Hnone. by destruct (Hnone w Hw).
  - by apply IH.
Qed.

Lemma menu_keywords_plain (keyword : str) :
  keyword ∈ [lit "menu"; lit "1"; lit "khana"; lit "rate"; lit "price"; lit "charges"] →
  plain_keyword keyword = true.
Proof.
  intros Hin%list_elem_of_In.
  assert (forallb plain_keyword
            [lit "menu"; lit "1"; lit "khana"; lit "rate"; lit "price"; lit "charges"]
          = true) as Hall by (vm_compute; reflexivity).
  rewrite forallb_forall in Hall. by apply Hall.
Qed.

Lemma menu_keyword_wins (message : str) :
  any_in [lit "menu"; lit "1"; lit "khana"; lit "rate"; lit "price"; lit "charges"]
         message = true →
  response_logic message = get_menu.
Proof. intros Hany. unfold response_logic. by rewrite Hany. Qed.

Section Steps.
Variable U : unicode_db.

(** The two ways a call ends: withheld, with the bot as the sweep left it,
    or answered, with the sender's entry stamped. *)
Lemma generate_response_cases (now current_time : datetime)
    (message from_number : str) (self : WhatsAppBot) :
  (generate_response U now current_time message from_number self
     = Return (None, after_cleanup now self)
   ∧ ∃ t, user_sessions (after_cleanup now self) !! from_number = Some t
          ∧ seconds (current_time - t) < 2)
  ∨ (generate_response U now current_time message from_number self
       = Return (Some (response_logic (strip U (lower U message))),
                 touched from_number current_time (after_cleanup now self))
     ∧ ∀ t, user_sessions (after_cleanup now self) !! from_number = Some t →
            2 <= seconds (current_time - t)).
Proof.
  rewrite generate_response_returns. cbv zeta.
  destruct (user_sessions (after_cleanup now self) !! from_number) as [t|].
  - case_bool_decide.
    + left. split; [done|]. eauto.
    + right. split; [done|]. intros ? [= <-]. lia.
  - right. split; [done|]. by intros.
Qed.

(** Somebody else's message leaves a sender's entry alone, unless its
    sweep removes it. *)
Lemma generate_response_other (now current_time : datetime)
    (message from_number k : str) (self self' : WhatsAppBot) (r : option str) :
  generate_response U now current_time message from_number self = Return (r, self') →
  from_number ≠ k →
  user_sessions self' !! k = None ∨ user_sessions self' !! k = user_sessions self !! k.
Proof.
  intros Hrun Hne.
  destruct (generate_response_cases now current_time message from_number self)
    as [[Heq _]|[Heq _]]; rewrite Heq in Hrun; injection Hrun as <- <-.
  - apply after_cleanup_same_or_gone.
  - simpl. rewrite lookup_insert_ne by done. apply after_cleanup_same_or_gone.
Qed.

Lemma call_returns (c : call) (bot : WhatsAppBot) :
  ∃ r bot1,
    generate_response U (sweep_clock c) (check_clock c) (text c) (sender c) bot
    = Return (r, bot1).
Proof.
  destruct (generate_response_cases (sweep_clock c) (check_clock c) (text c)
              (sender c) bot) as [[-> _]|[-> _]]; eauto.
Qed.

Lemma respond_all_cons (c : call) (calls : list call) (bot bot1 : WhatsAppBot)
    (r : option str) :
  generate_response U (sweep_clock c) (check_clock c) (text c) (sender c) bot
    = Return (r, bot1) →
  respond_all U (c :: calls) bot
  = rs ← respond_all U calls bot1; mret (r :: rs.1, rs.2).
Proof. intros Hstep. cbn [respond_all]. by rewrite Hstep. Qed.

Lemma respond_all_returns (calls : list call) (bot : WhatsAppBot) :
  ∃ rs bot', respond_all U calls bot = Return (rs, bot') ∧ length rs = length calls.
Proof.
  revert bot. induction calls as [|c calls IH]; intros bot.
  - by exists [], bot.
  - destruct (call_returns c bot) as (r & bot1 & Hstep).
    rewrite (respond_all_cons _ calls _ _ _ Hstep).
    destruct (IH bot1) as (rs & bot' & -> & Hlen).
    exists (r :: rs), bot'. split; [done|]. simpl. by rewrite Hlen.
Qed.

Lemma respond_all_others (k : str) (calls : list call) (bot bot' : WhatsAppBot)
    (rs : list (option str)) :
  Forall (fun c => sender c ≠ k) calls →
  respond_all U calls bot = Return (rs, bot') →
  user_sessions bot' !! k = None ∨ user_sessions bot' !! k = user_sessions bot !! k.
Proof.
  revert bot rs. induction calls as [|c calls IH]; intros bot rs Hothers Hrun.
  - injection Hrun as <- <-. by right.
  - apply Forall_cons in Hothers as [Hc Hothers].
    destruct (call_returns c bot) as (r & bot1 & Hstep).
    rewrite (respond_all_cons _ _ _ _ _ Hstep) in Hrun.
    destruct (respond_all U calls bot1) as [[rs1 bot2]|] eqn:Hrest; [|done].
    injection Hrun as <- <-. simpl.
    destruct (IH _ _ Hothers Hrest) as [Hgone|Hsame]; [by left|].
    rewrite Hsame. by eapply generate_response_other.
Qed.

Lemma respond_all_app (l1 l2 : list call) (bot bot1 bot2 : WhatsAppBot)
    (rs1 rs2 : list (option str)) :
  respond_all U l1 bot = Return (rs1, bot1) →
  respond_all U l2 bot1 = Return (rs2, bot2) →
  respond_all U (l1 ++ l2) bot = Return (rs1 ++ rs2, bot2).
Proof.
  revert bot rs1. induction l1 as [|c l1 IH]; intros bot rs1 H1 H2.
  - by injection H1 as <- <-.
  - destruct (call_returns c bot) as (r & bot' & Hstep).
    rewrite (respond_all_cons _ _ _ _ _ Hstep) in H1.
    destruct (respond_all U l1 bot') as [[rs bot'']|] eqn:Hrest; [|done].
    injection H1 as <- <-.
    change ((c :: l1) ++ l2) with (c :: (l1 ++ l2)).
    rewrite (respond_all_cons _ _ _ _ _ Hstep).
    by rewrite (IH _ _ Hrest H2).
Qed.

(** ** Intervals shorter than a day *)

Lemma seconds_at_least_two (d : timedelta) :
  2 * microseconds_per_second <= d < microseconds_per_day → 2 <= seconds d.
Proof.
  intros Hd. rewrite seconds_within_a_day by (unfold microseconds_per_second in *; lia).
  unfold microseconds_per_day, microseconds_per_second in *.
  Z.div_mod_to_equations. lia.
Qed.

Lemma seconds_below_two (d : timedelta) :
  0 <= d < 2 * microseconds_per_second → seconds d < 2.
Proof.
  intros Hd.
  rewrite seconds_within_a_day
    by (unfold microseconds_per_day, microseconds_per_second in *; lia).
  unfold microseconds_per_second in *. Z.div_mod_to_equations. lia.
Qed.

Lemma seconds_at_most_300 (d : timedelta) :
  0 <= d <= 300 * microseconds_per_second → ¬ 300 < seconds d.
Proof.
  intros Hd.
  rewrite seconds_within_a_day
    by (unfold microseconds_per_day, microseconds_per_second in *; lia).
  unfold microseconds_per_second in *. Z.div_mod_to_equations. lia.
Qed.

Lemma seconds_above_300 (d : timedelta) :
  301 * microseconds_per_second <= d < microseconds_per_day → 300 < seconds d.
Proof.
  intros Hd.
  rewrite seconds_within_a_day
    by (unfold microseconds_per_day, microseconds_per_second in *; lia).
  unfold microseconds_per_day, microseconds_per_second in *.
  Z.div_mod_to_equations. lia.
Qed.

(** ** The duplicate window and the sweep, within a day *)

(** A second message less than two seconds after the stored time is
    withheld and the stored time stays (the clock does not run backwards
    between the stored reading and the two readings of this call). *)
Lemma repeat_within_two_seconds (now current_time t : datetime)
    (message from_number : str) (self : WhatsAppBot) :
  user_sessions self !! from_number = Some t →
  t <= now → now <= current_time →
  current_time - t < 2 * microseconds_per_second →
  generate_response U now current_time message from_number self
    = Return (None, after_cleanup now self)
  ∧ user_sessions (after_cleanup now self) !! from_number = Some t.
Proof.
  intros Hk Hnow Hct Hgap.
  assert (user_sessions (after_cleanup now self) !! from_number = Some t) as Hkept.
  { unfold after_cleanup. case_bool_decide; [|done]. simpl.
    rewrite lookup_swept, Hk. rewrite bool_decide_eq_false_2; [done|].
    apply seconds_at_most_300. unfold microseconds_per_second in *. lia. }
  split; [|done].
  destruct (generate_response_cases now current_time message from_number self)
    as [[Heq _]|[_ Hold]]; [done|].
  specialize (Hold t Hkept).
  pose proof (seconds_below_two (current_time - t)). lia.
Qed.

(** From two seconds on, and short of a day, it is answered and the stored
    time becomes the time of the call. *)
Lemma later_same_day_is_answered (now current_time t : datetime)
    (message from_number : str) (self : WhatsAppBot) :
  user_sessions self !! from_number = Some t →
  2 * microseconds_per_second <= current_time - t < microseconds_per_day →
  ∃ reply self',
    generate_response U now current_time message from_number self
      = Return (Some reply, self')
    ∧ user_sessions self' !! from_number = Some current_time.
Proof.
  intros Hk Hgap.
  destruct (generate_response_cases now current_time message from_number self)
    as [[_ (t' & Hk' & Hdup)]|[Heq _]].
  - apply after_cleanup_lookup in Hk'. rewrite Hk in Hk'. injection Hk' as <-.
    pose proof (seconds_at_least_two _ Hgap). lia.
  - eexists _, _. split; [exact Heq|]. apply lookup_insert_eq.
Qed.

(** No sweep until more than 300 s have passed since the last one. *)
Lemma no_sweep_before_300_seconds (now : datetime) (self : WhatsAppBot) :
  0 <= now - last_cleanup self <= 300 * microseconds_per_second →
  cleanup_old_sessions now self = Return self.
Proof.
  intros Hgap. rewrite cleanup_old_sessions_returns. unfold after_cleanup.
  rewrite bool_decide_eq_false_2; [done|]. by apply seconds_at_most_300.
Qed.

(** A sweep that runs does so more than 300 s after the last one (the
    clock not running backwards), sets [last_cleanup], keeps what was
    touched in the last 300 s, and deletes what is between 301 s and a day
    old. *)
Lemma sweep_within_a_day (now : datetime) (self : WhatsAppBot) :
  300 < seconds (now - last_cleanup self) →
  ∃ self', cleanup_old_sessions now self = Return self'
    ∧ last_cleanup self' = now
    ∧ (last_cleanup self <= now →
       300 * microseconds_per_second < now - last_cleanup self)
    ∧ ∀ k t, user_sessions self !! k = Some t →
        (0 <= now - t <= 300 * microseconds_per_second →
         user_sessions self' !! k = Some t)
        ∧ (301 * microseconds_per_second <= now - t < microseconds_per_day →
           user_sessions self' !! k = None).
Proof.
  intros Hrun. exists (after_cleanup now self).
  split; [apply cleanup_old_sessions_returns|].
  unfold after_cleanup. rewrite bool_decide_eq_true_2 by done. simpl.
  split; [done|]. split.
  - intros Hmono. pose proof (seconds_le_elapsed (now - last_cleanup self)).
    unfold microseconds_per_second in *. lia.
  - intros k t Hk. rewrite lookup_swept, Hk. split; intros Hage.
    + rewrite bool_decide_eq_false_2; [done|]. by apply seconds_at_most_300.
    + rewrite bool_decide_eq_true_2; [done|]. by apply seconds_above_300.
Qed.

End Steps.

Section Responses.
Variable U : unicode_db.


(** C9: a sender with no entry in the session map is never refused: the
    call returns a reply text and leaves an entry for the sender, stamped
    with the time of the call. *)
Theorem new_sender_is_answered (now current_time : datetime)
    (message from_number : str) (self : WhatsAppBot) :
  user_sessions self !! from_number = None →
  ∃ (reply : str) (self' : WhatsAppBot),
    generate_response U now current_time message from_number self
      = Return (Some reply, self')
    ∧ reply ∈ canned_replies
    ∧ user_sessions self' !! from_number = Some current_time.
Proof.
  intros Hnew. rewrite generate_response_returns. cbv zeta.
  rewrite (after_cleanup_absent now self from_number Hnew).
  do 2 eexists. split; [reflexivity|]. split; [apply response_logic_canned|].
  apply lookup_insert_eq.
Qed.

(** C10: a call that returns [None] leaves the caller's own entry as it was
    and leaves the bot as the sweep left it; and there is such a call that
    deletes another sender's entry and moves [last_cleanup] forward. *)
Theorem suppressed_call_still_sweeps :
  (∀ (now current_time : datetime) (message from_number : str)
     (self self' : WhatsAppBot),
     generate_response U now current_time message from_number self
       = Return (None, self') →
     user_sessions self' !! from_number = user_sessions self !! from_number
     ∧ self' = after_cleanup now self)
  ∧ (∃ (now current_time : datetime) (message from_number other : str)
       (self self' : WhatsAppBot),
       generate_response U now current_time message from_number self
         = Return (None, self')
       ∧ other ≠ from_number
       ∧ is_Some (user_sessions self !! other)
       ∧ user_sessions self' !! other = None
       ∧ last_cleanup self < last_cleanup self').
Proof.
  split.
  - intros now current_time message from_number self self'.
    rewrite generate_response_returns. cbv zeta.
    destruct (user_sessions (after_cleanup now self) !! from_number) as [t|] eqn:Hk;
      [|by intros [=]].
    case_bool_decide; intros [= <-]. split; [|done].
    rewrite Hk. symmetry. by eapply after_cleanup_lookup.
  - exists (at_second 1001), (at_second 1001), (lit "hello"),
      (lit "+923001234567"), (lit "+923007654321"),
      {| user_sessions := <[lit "+923001234567" := at_second 1000]>
                            {[lit "+923007654321" := at_second 10]};
         last_cleanup := 0 |}.
    eexists. split; [vm_compute; reflexivity|].
    split; [by vm_compute|]. split; [by eexists|]. split; by vm_compute.
Qed.

(** C1, at a message that comes one day and one second after the sender's
    last one: a bot created at second 0 answers the sender at second 10;
    at second 86411 no sweep runs (the seconds field of the time since
    [last_cleanup] is 11), the sender's entry is still there, the seconds
    field of the 86401 s since then is 1, and the call returns [None]
    without touching the entry. *)
Theorem next_day_message_is_suppressed :
  let from_number := lit "+923001234567" in
  respond_all U
    [ message_at 10 from_number (lit "Hello");
      message_at 86411 from_number (lit "menu") ]
    (WhatsAppBot_init (at_second 0))
  = Return ([Some get_welcome_message; None],
            {| user_sessions := {[ from_number := at_second 10 ]};
               last_cleanup := at_second 0 |}).
Proof. vm_compute. reflexivity. Qed.

(** C4, at a sweep that meets an entry a day old: a bot created at second 0
    answers a first sender at second 200 (no sweep: 200 is not above 300)
    and a second one at second 86800; that call sweeps (the seconds field
    of the time since [last_cleanup] is 400) and sets [last_cleanup], yet
    the first sender's entry, 86600 s old, stays: the seconds field of its
    age is 200. *)
Theorem day_old_entry_survives_sweep :
  let first := lit "+923001234567" in
  let second := lit "+923007654321" in
  respond_all U
    [ message_at 200 first (lit "Hello");
      message_at 86800 second (lit "Hello") ]
    (WhatsAppBot_init (at_second 0))
  = Return ([Some get_welcome_message; Some get_welcome_message],
            {| user_sessions := <[ second := at_second 86800 ]> {[ first := at_second 200 ]};
               last_cleanup := at_second 86800 |}).
Proof. vm_compute. reflexivity. Qed.

(** C2, amended: take two calls of one sender with no other call of that
    sender between them (other senders may call), the later more than two
    seconds and less than a day after the earlier.  If the earlier is
    answered, so is the later; and when the sender has no entry before the
    earlier call, both are answered. *)
Theorem spaced_calls_are_answered (from_number : str) (first second : call)
    (between : list call) (bot : WhatsAppBot) :
  sender first = from_number →
  sender second = from_number →
  Forall (fun c => sender c ≠ from_number) between →
  2 * microseconds_per_second < check_clock second - check_clock first
    < microseconds_per_day →
  ∃ (r1 : option str) (rs : list (option str)) (r2 : option str) (bot' : WhatsAppBot),
    respond_all U (first :: between ++ [second]) bot
      = Return (r1 :: rs ++ [r2], bot')
    ∧ length rs = length between
    ∧ (is_Some r1 → is_Some r2)
    ∧ (user_sessions bot !! from_number = None → is_Some r1 ∧ is_Some r2).
Proof.
  intros Hfirst Hsecond Hothers Hgap.
  destruct (call_returns U first bot) as (r1 & bot1 & Hstep1).
  destruct (respond_all_returns U between bot1) as (rs & bot2 & Hmid & Hlen).
  destruct (call_returns U second bot2) as (r2 & bot3 & Hstep2).
  assert (respond_all U [second] bot2 = Return ([r2], bot3)) as Hlast.
  { by rewrite (respond_all_cons U _ _ _ _ _ Hstep2). }
  exists r1, rs, r2, bot3.
  split.
  { rewrite (respond_all_cons U _ _ _ _ _ Hstep1).
    by rewrite (respond_all_app U _ _ _ _ _ _ _ Hmid Hlast). }
  split; [done|].
  assert (is_Some r1 → is_Some r2) as Hboth.
  { intros Hr1.
    assert (user_sessions bot1 !! from_number = Some (check_clock first)) as Hk1.
    { destruct (generate_response_cases U (sweep_clock first) (check_clock first)
                  (text first) (sender first) bot) as [[Heq _]|[Heq _]];
        rewrite Heq in Hstep1; injection Hstep1 as <- <-.
      - by destruct Hr1.
      - simpl. rewrite Hfirst. apply lookup_insert_eq. }
    destruct (generate_response_cases U (sweep_clock second) (check_clock second)
                (text second) (sender second) bot2) as [[Heq (t & Hk & Hdup)]|[Heq _]];
      rewrite Heq in Hstep2; injection Hstep2 as <- <-; [|by eexists].
    exfalso. rewrite Hsecond in Hk. apply after_cleanup_lookup in Hk.
    destruct (respond_all_others U from_number between bot1 bot2 rs Hothers Hmid)
      as [Hgone|Hsame]; [congruence|].
    rewrite Hsame, Hk1 in Hk. injection Hk as <-.
    pose proof (seconds_at_least_two (check_clock second - check_clock first)).
    lia. }
  split; [done|].
  intros Hnew.
  assert (is_Some r1) as Hr1; [|by auto].
  destruct (generate_response_cases U (sweep_clock first) (check_clock first)
              (text first) (sender first) bot) as [[Heq (t & Hk & _)]|[Heq _]];
    rewrite Heq in Hstep1; injection Hstep1 as <- <-; [|by eexists].
  rewrite Hfirst in Hk. apply after_cleanup_lookup in Hk. congruence.
Qed.

(** C3: a call that is answered answers the normalised message (lowered,
    then stripped) with the reply of the first category, in the order menu,
    booking, contact, hours, greeting, thanks, farewell, one of whose
    triggers occurs in the message (the message is some text, the trigger,
    and more text), no trigger of an earlier category occurring in it, and
    with the default text when no trigger of any category occurs; no other
    text fits that description.  A message in which a menu keyword occurs,
    in whatever letter case and with whatever around it, gets the menu; so
    does [menu order], which holds the booking keyword [order] as well. *)
Theorem matching_follows_priority_order :
  (∀ (now current_time : datetime) (message from_number reply : str)
     (self self' : WhatsAppBot),
     generate_response U now current_time message from_number self
       = Return (Some reply, self') →
     spec_reply (strip U (lower U message)) spec_categories get_default_response reply
     ∧ (∀ other : str,
          spec_reply (strip U (lower U message)) spec_categories
            get_default_response other →
          other = reply)
     ∧ reply = spec_first_match spec_categories get_default_response
                 (strip U (lower U message)))
  ∧ (∀ (now current_time : datetime) (keyword pre w post from_number reply : str)
       (self self' : WhatsAppBot),
       keyword ∈ [lit "menu"; lit "1"; lit "khana"; lit "rate"; lit "price";
                  lit "charges"] →
       ascii_lower <$> w = keyword →
       generate_response U now current_time (pre ++ w ++ post) from_number self
         = Return (Some reply, self') →
       reply = get_menu)
  ∧ (∀ (now current_time : datetime) (from_number reply : str)
       (self self' : WhatsAppBot),
       generate_response U now current_time (lit "menu order") from_number self
         = Return (Some reply, self') →
       contains (lit "order") (strip U (lower U (lit "menu order"))) = true
       ∧ reply = get_menu).
Proof.
  assert (∀ (now current_time : datetime) (message from_number reply : str)
            (self self' : WhatsAppBot),
            generate_response U now current_time message from_number self
              = Return (Some reply, self') →
            reply = response_logic (strip U (lower U message))) as Hreply.
  { intros now current_time message from_number reply self self' Hrun.
    destruct (generate_response_cases U now current_time message from_number self)
      as [[Heq _]|[Heq _]]; rewrite Heq in Hrun; [done|].
    by injection Hrun as <- _. }
  split; [|split].
  - intros now current_time message from_number reply self self' Hrun.
    assert (reply = spec_first_match spec_categories get_default_response
                      (strip U (lower U message))) as Hfirst.
    { rewrite <- response_logic_first_match. by eapply Hreply. }
    split; [|split; [|exact Hfirst]].
    + rewrite Hfirst. apply spec_first_match_reply.
    + intros other Hother. rewrite Hfirst.
      eapply spec_reply_functional; [exact Hother|apply spec_first_match_reply].
  - intros now current_time keyword pre w post from_number reply self self' Hkw Hw Hrun.
    rewrite (Hreply _ _ _ _ _ _ _ Hrun). apply menu_keyword_wins.
    eapply any_in_intro; [exact Hkw|].
    apply keyword_survives_normalisation; [by apply menu_keywords_plain|done].
  - intros now current_time from_number reply self self' Hrun.
    split; [vm_compute; reflexivity|].
    rewrite (Hreply _ _ _ _ _ _ _ Hrun). apply menu_keyword_wins.
    vm_compute. reflexivity.
Qed.

End Responses.

(** ** The responder with its console output *)






Section ConsoleResponder.
Variable U : unicode_db.



End ConsoleResponder.



(** ** [str.replace] with the marker *)

Lemma replace_from_skip (old new x s : str) :
  replace_from old new (length x) (x ++ s) = replace_from old new 0 s.
Proof.
  induction x as [|c x IH]; [|exact IH].
  destruct s; [done|]. reflexivity.
Qed.

(** A leading occurrence is replaced and the scan goes on behind it. *)
Lemma replace_leading (old new s : str) :
  old ≠ [] → replace old new (old ++ s) = new ++ replace old new s.
Proof.
  intros Hold. unfold replace. destruct old as [|a old']; [done|].
  cbn [app replace_from].
  assert (startswith (a :: old') (a :: old' ++ s) = true) as ->.
  { apply (startswith_spec (a :: old') (a :: old' ++ s)). by exists s. }
  cbn [length]. rewrite Nat.sub_succ, Nat.sub_0_r. by rewrite replace_from_skip.
Qed.

(** Text in which [old] does not occur is left alone. *)
Lemma replace_absent (old new s : str) :
  old ≠ [] → contains old s = false → replace old new s = s.
Proof.
  intros Hold. unfold replace. destruct old as [|a old']; [done|].
  induction s as [|c s IH]; [done|].
  cbn [contains replace_from]. intros [-> Hrest]%orb_false_iff.
  by rewrite IH.
Qed.

Lemma form_get_missing (key : str) (form : list (str * str)) :
  Forall (fun field => field.1 ≠ key) form → form_get key [] form = [].
Proof.
  induction 1 as [|[k v] form Hk _ IH]; [done|].
  cbn [form_get]. by rewrite bool_decide_eq_false_2.
Qed.

Lemma truthy_not_empty (s : str) : truthy s = true ↔ s ≠ [].
Proof. by destruct s. Qed.

Section Webhook.
Variable U : unicode_db.

(** Once both fields are there, the handler answers 200 with what the
    responder returned, wrapped as TwiML: no message when it returned
    [None], one message otherwise. *)
Lemma handle_webhook_answers (now current_time : datetime)
    (form : list (str * str)) (bot bot' : WhatsAppBot) (r : option str) :
  replace (lit "whatsapp:") [] (form_get (lit "From") [] form) ≠ [] →
  form_get (lit "Body") [] form ≠ [] →
  generate_response U now current_time (form_get (lit "Body") [] form)
    (replace (lit "whatsapp:") [] (form_get (lit "From") [] form)) bot
    = Return (r, bot') →
  handle_webhook U now current_time form bot
  = Return ({| body := TwiML (option_list r); status := 200 |}, bot').
Proof.
  intros Hfrom%truthy_not_empty Hbody%truthy_not_empty Hrun.
  unfold handle_webhook. cbv zeta. rewrite Hfrom, Hbody. cbn [negb orb].
  rewrite Hrun. cbn [mbind outcome_bind fst snd].
  destruct (generate_response_cases U now current_time
              (form_get (lit "Body") [] form)
              (replace (lit "whatsapp:") [] (form_get (lit "From") [] form)) bot)
    as [[Heq _]|[Heq _]]; rewrite Heq in Hrun; injection Hrun as <- <-; [done|].
  cbn [truthy_opt option_list].
  by rewrite (canned_replies_not_empty _ (response_logic_canned _)).
Qed.

(** C5: when the sender left after the marker is taken out, or the message
    body, is empty, and so when either field is missing from the form, the
    handler answers 400 with the plain text [Missing data] and leaves the bot
    alone; when both are non-empty it answers 200. *)
Theorem missing_field_is_rejected (now current_time : datetime)
    (form : list (str * str)) (bot : WhatsAppBot) :
  let from_number := replace (lit "whatsapp:") [] (form_get (lit "From") [] form) in
  let message_body := form_get (lit "Body") [] form in
  (from_number = [] ∨ message_body = [] →
   handle_webhook U now current_time form bot
   = Return ({| body := PlainText (lit "Missing data"); status := 400 |}, bot))
  ∧ (Forall (fun field => field.1 ≠ lit "From") form
     ∨ Forall (fun field => field.1 ≠ lit "Body") form →
     handle_webhook U now current_time form bot
     = Return ({| body := PlainText (lit "Missing data"); status := 400 |}, bot))
  ∧ (from_number ≠ [] → message_body ≠ [] →
     ∃ (response : http_response) (bot' : WhatsAppBot),
       handle_webhook U now current_time form bot = Return (response, bot')
       ∧ status response = 200).
Proof.
  cbv zeta.
  assert (replace (lit "whatsapp:") [] (form_get (lit "From") [] form) = []
          ∨ form_get (lit "Body") [] form = [] →
          handle_webhook U now current_time form bot
          = Return ({| body := PlainText (lit "Missing data"); status := 400 |}, bot))
    as Hempty.
  { intros Hmissing. unfold handle_webhook. cbv zeta.
    destruct Hmissing as [-> | ->]; [done|]. by rewrite orb_true_r. }
  split; [done|]. split.
  - intros [Hfrom|Hbody]; apply Hempty.
    + left. by rewrite (form_get_missing _ _ Hfrom).
    + right. by apply form_get_missing.
  - intros Hfrom Hbody.
    destruct (call_returns U
                {| sweep_clock := now; check_clock := current_time;
                   text := form_get (lit "Body") [] form;
                   sender := replace (lit "whatsapp:") []
                               (form_get (lit "From") [] form) |} bot)
      as (r & bot' & Hrun).
    eexists _, bot'. split; [by apply handle_webhook_answers|done].
Qed.

(** C6: with both fields there, a [None] from the responder is answered with
    an empty TwiML response and status 200, and a reply text with a TwiML
    response that holds this one message and status 200; the bot is left as
    the responder left it. *)
Theorem reply_is_wrapped_in_twiml (now current_time : datetime)
    (form : list (str * str)) (bot : WhatsAppBot) :
  let from_number := replace (lit "whatsapp:") [] (form_get (lit "From") [] form) in
  let message_body := form_get (lit "Body") [] form in
  from_number ≠ [] → message_body ≠ [] →
  (∀ bot' : WhatsAppBot,
     generate_response U now current_time message_body from_number bot
       = Return (None, bot') →
     handle_webhook U now current_time form bot
     = Return ({| body := TwiML []; status := 200 |}, bot'))
  ∧ (∀ (reply : str) (bot' : WhatsAppBot),
       generate_response U now current_time message_body from_number bot
         = Return (Some reply, bot') →
       handle_webhook U now current_time form bot
       = Return ({| body := TwiML [reply]; status := 200 |}, bot')).
Proof.
  cbv zeta. intros Hfrom Hbody. split.
  - intros bot' Hrun. by rewrite (handle_webhook_answers _ _ _ _ _ _ Hfrom Hbody Hrun).
  - intros reply bot' Hrun.
    by rewrite (handle_webhook_answers _ _ _ _ _ _ Hfrom Hbody Hrun).
Qed.


End Webhook.

(** ** The results at concrete messages *)

(** C2 as stated fails: a bot created at second 0 hears one sender at
    seconds 10, 11 and 14.  The calls at 11 and at 14 are three seconds
    apart, and the call at 11 returns [None], being one second after the
    call at 10. *)
Lemma duplicate_between_spaced_calls :
  respond_all ascii_only
    [ message_at 10 (lit "+923001234567") (lit "Hello");
      message_at 11 (lit "+923001234567") (lit "Hello");
      message_at 14 (lit "+923001234567") (lit "menu") ]
    (WhatsAppBot_init (at_second 0))
  = Return ([Some get_welcome_message; None; Some get_menu],
            {| user_sessions := {[ lit "+923001234567" := at_second 14 ]};
               last_cleanup := at_second 0 |})
  ∧ 2 * microseconds_per_second < at_second 14 - at_second 11.
Proof. split; vm_compute; reflexivity. Qed.

(** C2, amended, at calls of one sender at seconds 10 and 13 with another
    sender's call at second 11 between them. *)
Lemma spaced_calls_are_answered_witness :
  sender (message_at 10 (lit "+923001234567") (lit "Hello")) = lit "+923001234567"
  ∧ sender (message_at 13 (lit "+923001234567") (lit "menu")) = lit "+923001234567"
  ∧ Forall (fun c => sender c ≠ lit "+923001234567")
      [message_at 11 (lit "+923007654321") (lit "hi")]
  ∧ 2 * microseconds_per_second
      < check_clock (message_at 13 (lit "+923001234567") (lit "menu"))
        - check_clock (message_at 10 (lit "+923001234567") (lit "Hello"))
      < microseconds_per_day
  ∧ ∃ (r1 : option str) (rs : list (option str)) (r2 : option str) (bot' : WhatsAppBot),
      respond_all ascii_only
        (message_at 10 (lit "+923001234567") (lit "Hello")
           :: [message_at 11 (lit "+923007654321") (lit "hi")]
           ++ [message_at 13 (lit "+923001234567") (lit "menu")])
        (WhatsAppBot_init (at_second 0))
      = Return (r1 :: rs ++ [r2], bot')
      ∧ length rs = length [message_at 11 (lit "+923007654321") (lit "hi")]
      ∧ (is_Some r1 → is_Some r2)
      ∧ (user_sessions (WhatsAppBot_init (at_second 0)) !! lit "+923001234567" = None →
         is_Some r1 ∧ is_Some r2).
Proof.
  assert (Forall (fun c => sender c ≠ lit "+923001234567")
            [message_at 11 (lit "+923007654321") (lit "hi")]) as Hothers.
  { constructor; [|constructor]. vm_compute. discriminate. }
  assert (2 * microseconds_per_second
          < check_clock (message_at 13 (lit "+923001234567") (lit "menu"))
            - check_clock (message_at 10 (lit "+923001234567") (lit "Hello"))
          < microseconds_per_day) as Hgap.
  { split; vm_compute; reflexivity. }
  split; [reflexivity|]. split; [reflexivity|]. split; [exact Hothers|].
  split; [exact Hgap|].
  exact (spaced_calls_are_answered ascii_only (lit "+923001234567")
           (message_at 10 (lit "+923001234567") (lit "Hello"))
           (message_at 13 (lit "+923001234567") (lit "menu"))
           [message_at 11 (lit "+923007654321") (lit "hi")]
           (WhatsAppBot_init (at_second 0)) eq_refl eq_refl Hothers Hgap).
Defined.

(** C3 at a message with a menu keyword in capitals, white space around it
    and a booking keyword behind it. *)
Lemma matching_follows_priority_order_witness :
  lit "menu" ∈ [lit "menu"; lit "1"; lit "khana"; lit "rate"; lit "price"; lit "charges"]
  ∧ ascii_lower <$> lit "MENU" = lit "menu"
  ∧ generate_response ascii_only (at_second 10) (at_second 10)
      (lit "  Show me the " ++ lit "MENU" ++ lit " and my order  ")
      (lit "+923001234567") (WhatsAppBot_init (at_second 0))
    = Return (Some get_menu,
              touched (lit "+923001234567") (at_second 10)
                (WhatsAppBot_init (at_second 0)))
  ∧ get_menu = get_menu
  ∧ generate_response ascii_only (at_second 10) (at_second 10)
      (lit "Order please") (lit "+923001234567") (WhatsAppBot_init (at_second 0))
    = Return (Some get_booking_info,
              touched (lit "+923001234567") (at_second 10)
                (WhatsAppBot_init (at_second 0)))
  ∧ spec_reply (strip ascii_only (lower ascii_only (lit "Order please")))
      spec_categories get_default_response get_booking_info.
Proof.
  assert (generate_response ascii_only (at_second 10) (at_second 10)
            (lit "Order please") (lit "+923001234567") (WhatsAppBot_init (at_second 0))
          = Return (Some get_booking_info,
                    touched (lit "+923001234567") (at_second 10)
                      (WhatsAppBot_init (at_second 0)))) as Hbooking
    by (vm_compute; reflexivity).
  assert (lit "menu" ∈ [lit "menu"; lit "1"; lit "khana"; lit "rate"; lit "price";
                        lit "charges"]) as Hkw by apply list_elem_of_here.
  assert (ascii_lower <$> lit "MENU" = lit "menu") as Hw by (vm_compute; reflexivity).
  assert (generate_response ascii_only (at_second 10) (at_second 10)
            (lit "  Show me the " ++ lit "MENU" ++ lit " and my order  ")
            (lit "+923001234567") (WhatsAppBot_init (at_second 0))
          = Return (Some get_menu,
                    touched (lit "+923001234567") (at_second 10)
                      (WhatsAppBot_init (at_second 0)))) as Hrun
    by (vm_compute; reflexivity).
  split; [exact Hkw|]. split; [exact Hw|]. split; [exact Hrun|].
  split.
  { exact (proj1 (proj2 (matching_follows_priority_order ascii_only))
             (at_second 10) (at_second 10) (lit "menu") (lit "  Show me the ")
             (lit "MENU") (lit " and my order  ") (lit "+923001234567") get_menu
             (WhatsAppBot_init (at_second 0)) _ Hkw Hw Hrun). }
  split; [exact Hbooking|].
  exact (proj1 (proj1 (matching_follows_priority_order ascii_only)
                  (at_second 10) (at_second 10) (lit "Order please")
                  (lit "+923001234567") get_booking_info
                  (WhatsAppBot_init (at_second 0)) _ Hbooking)).
Defined.

(** C5 at a form without a [Body] field. *)
Lemma missing_field_is_rejected_witness :
  Forall (fun field : str * str => field.1 ≠ lit "Body")
    [(lit "From", lit "whatsapp:+923001234567")]
  ∧ handle_webhook ascii_only (at_second 10) (at_second 10)
      [(lit "From", lit "whatsapp:+923001234567")] (WhatsAppBot_init (at_second 0))
    = Return ({| body := PlainText (lit "Missing data"); status := 400 |},
              WhatsAppBot_init (at_second 0)).
Proof.
  assert (Forall (fun field : str * str => field.1 ≠ lit "Body")
            [(lit "From", lit "whatsapp:+923001234567")]) as Hmissing.
  { constructor; [|constructor]. vm_compute. discriminate. }
  split; [exact Hmissing|].
  exact (proj1 (proj2 (missing_field_is_rejected ascii_only (at_second 10)
                         (at_second 10) [(lit "From", lit "whatsapp:+923001234567")]
                         (WhatsAppBot_init (at_second 0))))
           (or_intror Hmissing)).
Defined.

(** C6 at a first [hello] from a sender. *)
Lemma reply_is_wrapped_in_twiml_witness :
  handle_webhook ascii_only (at_second 10) (at_second 10)
    [(lit "From", lit "whatsapp:+923001234567"); (lit "Body", lit "hello")]
    (WhatsAppBot_init (at_second 0))
  = Return ({| body := TwiML [get_welcome_message]; status := 200 |},
            touched (lit "+923001234567") (at_second 10)
              (WhatsAppBot_init (at_second 0))).
Proof.
  refine (proj2 (reply_is_wrapped_in_twiml ascii_only (at_second 10) (at_second 10)
                   [(lit "From", lit "whatsapp:+923001234567"); (lit "Body", lit "hello")]
                   (WhatsAppBot_init (at_second 0)) _ _)
            get_welcome_message _ _).
  - vm_compute. discriminate.
  - vm_compute. discriminate.
  - vm_compute. reflexivity.
Defined.



(** C9 at the first message a new bot receives. *)
Lemma new_sender_is_answered_witness :
  user_sessions (WhatsAppBot_init (at_second 0)) !! lit "+923001234567" = None
  ∧ ∃ (reply : str) (self' : WhatsAppBot),
      generate_response ascii_only (at_second 10) (at_second 10) (lit "hello")
        (lit "+923001234567") (WhatsAppBot_init (at_second 0))
      = Return (Some reply, self')
      ∧ reply ∈ canned_replies
      ∧ user_sessions self' !! lit "+923001234567" = Some (at_second 10).
Proof.
  assert (user_sessions (WhatsAppBot_init (at_second 0)) !! lit "+923001234567" = None)
    as Hnew by (vm_compute; reflexivity).
  split; [exact Hnew|].
  exact (new_sender_is_answered ascii_only (at_second 10) (at_second 10) (lit "hello")
           (lit "+923001234567") (WhatsAppBot_init (at_second 0)) Hnew).
Defined.

(** C10 at a repeat one second after the sender's last message, 1001 s
    after the last sweep. *)
Lemma suppressed_call_still_sweeps_witness :
  generate_response ascii_only (at_second 1001) (at_second 1001) (lit "hello")
    (lit "+923001234567")
    {| user_sessions := <[lit "+923001234567" := at_second 1000]>
                          {[lit "+923007654321" := at_second 10]};
       last_cleanup := at_second 0 |}
  = Return (None, {| user_sessions := {[lit "+923001234567" := at_second 1000]};
                     last_cleanup := at_second 1001 |})
  ∧ user_sessions {| user_sessions := {[lit "+923001234567" := at_second 1000]};
                     last_cleanup := at_second 1001 |} !! lit "+923001234567"
    = user_sessions
        {| user_sessions := <[lit "+923001234567" := at_second 1000]>
                              {[lit "+923007654321" := at_second 10]};
           last_cleanup := at_second 0 |} !! lit "+923001234567".
Proof.
  assert (generate_response ascii_only (at_second 1001) (at_second 1001) (lit "hello")
            (lit "+923001234567")
            {| user_sessions := <[lit "+923001234567" := at_second 1000]>
                                  {[lit "+923007654321" := at_second 10]};
               last_cleanup := at_second 0 |}
          = Return (None, {| user_sessions := {[lit "+923001234567" := at_second 1000]};
                             last_cleanup := at_second 1001 |})) as Hrun
    by (vm_compute; reflexivity).
  split; [exact Hrun|].
  exact (proj1 (proj1 (suppressed_call_still_sweeps ascii_only) _ _ _ _ _ _ Hrun)).
Defined.

(** The seconds field also drops the fraction: an entry 300.5 s old at a
    sweep has 300 in it, which is not above 300, and stays. *)
Example half_second_over_survives :
  respond_all ascii_only
    [ {| sweep_clock := 500000; check_clock := 500000;
         text := lit "Hello"; sender := lit "+923001234567" |};
      message_at 301 (lit "+923007654321") (lit "Hello") ]
    (WhatsAppBot_init (at_second 0))
  = Return ([Some get_welcome_message; Some get_welcome_message],
            {| user_sessions := <[ lit "+923007654321" := at_second 301 ]>
                                  {[ lit "+923001234567" := 500000 ]};
               last_cleanup := at_second 301 |}).
Proof. vm_compute. reflexivity. Qed.

Example lit_decodes_utf8 :
  lit "menu" = [109; 101; 110; 117]%N ∧ lit "₹" = [8377]%N ∧ lit "📋" = [128203]%N.
Proof. repeat split; reflexivity. Qed.

Example replace_does_not_overlap :
  replace (lit "aa") (lit "b") (lit "aaa") = lit "ba"
  ∧ replace [] (lit "-") (lit "abc") = lit "-a-b-c-".
Proof. split; reflexivity. Qed.

Example normalise_ascii :
  strip ascii_only (lower ascii_only (lit "  MeNu Please
 ")) = lit "menu please".
Proof. reflexivity. Qed.

(** * Further properties of the code *)

(** ** Runs of messages *)

Lemma after_cleanup_keeps_recent (now t : datetime) (self : WhatsAppBot) (k : str) :
  user_sessions self !! k = Some t →
  0 <= now - t <= 300 * microseconds_per_second →
  user_sessions (after_cleanup now self) !! k = Some t.
Proof.
  intros Hk Hage. unfold after_cleanup. case_bool_decide; [|done]. simpl.
  rewrite lookup_swept, Hk. rewrite bool_decide_eq_false_2; [done|].
  by apply seconds_at_most_300.
Qed.

Lemma after_cleanup_subseteq (now : datetime) (self : WhatsAppBot) :
  user_sessions (after_cleanup now self) ⊆ user_sessions self.
Proof.
  unfold after_cleanup. case_bool_decide; [|done]. apply map_filter_subseteq.
Qed.

Section Runs.
Variable U : unicode_db.

Lemma burst_keeps_entry (from_number : str) (t1 : datetime) (burst : list call)
    (bot bot' : WhatsAppBot) (rs : list (option str)) :
  user_sessions bot !! from_number = Some t1 →
  Forall (fun c => t1 <= sweep_clock c <= check_clock c
                   ∧ check_clock c - t1 < 2 * microseconds_per_second) burst →
  respond_all U burst bot = Return (rs, bot') →
  Forall2 (fun c r => sender c = from_number → r = None) burst rs
  ∧ user_sessions bot' !! from_number = Some t1.
Proof.
  revert bot rs. induction burst as [|c burst IH]; intros bot rs Hk Hburst Hrun.
  - injection Hrun as <- <-. by split.
  - apply Forall_cons in Hburst as [[[Hlo Hhi] Hgap] Hburst].
    assert (user_sessions (after_cleanup (sweep_clock c) bot) !! from_number = Some t1)
      as Hkept.
    { apply after_cleanup_keeps_recent; [done|].
      unfold microseconds_per_second in *. lia. }
    destruct (generate_response_cases U (sweep_clock c) (check_clock c) (text c)
                (sender c) bot) as [[Hstep _]|[Hstep Hold]];
      rewrite (respond_all_cons U _ _ _ _ _ Hstep) in Hrun;
      destruct (respond_all U burst _) as [[rs1 bot2]|] eqn:Hrest; try done;
      injection Hrun as <- <-; cbn [fst snd].
    + destruct (IH _ _ Hkept Hburst Hrest) as [Hall Hlast].
      split; [by constructor|done].
    + assert (sender c ≠ from_number) as Hother.
      { intros Hsame. rewrite Hsame in Hold. specialize (Hold t1 Hkept).
        pose proof (seconds_below_two (check_clock c - t1)). lia. }
      assert (user_sessions (touched (sender c) (check_clock c)
                (after_cleanup (sweep_clock c) bot)) !! from_number = Some t1) as Hk'.
      { cbn. by rewrite lookup_insert_ne. }
      destruct (IH _ _ Hk' Hburst Hrest) as [Hall Hlast].
      split; [by constructor|done].
Qed.

(** X1: once a message of a sender is answered, every further message of
    that sender is withheld, whatever its text, as long as it comes less than
    two seconds after the answered one; messages of other senders in between
    change nothing in that, and the sender's stored time stays that of the
    answered message.  (The clock readings of the later calls are not before
    that time, and each call reads the clock for the sweep before it reads
    it for the check.) *)
Theorem burst_gets_one_reply (from_number reply : str) (first : call)
    (burst : list call) (bot bot' : WhatsAppBot) (rs : list (option str)) :
  sender first = from_number →
  Forall (fun c => check_clock first <= sweep_clock c <= check_clock c
                   ∧ check_clock c - check_clock first < 2 * microseconds_per_second)
         burst →
  respond_all U (first :: burst) bot = Return (Some reply :: rs, bot') →
  Forall2 (fun c r => sender c = from_number → r = None) burst rs
  ∧ user_sessions bot' !! from_number = Some (check_clock first).
Proof.
  intros Hfirst Hburst Hrun.
  destruct (generate_response_cases U (sweep_clock first) (check_clock first)
              (text first) (sender first) bot) as [[Hstep _]|[Hstep _]];
    rewrite (respond_all_cons U _ _ _ _ _ Hstep) in Hrun;
    destruct (respond_all U burst _) as [[rs1 bot2]|] eqn:Hrest; try done;
    injection Hrun as <- <- <-.
  eapply burst_keeps_entry; [|exact Hburst|exact Hrest].
  cbn. rewrite Hfirst. apply lookup_insert_eq.
Qed.

(** X2: a time the session map holds after a run was either there before
    the run, or is the time of the check of an answered message of that
    sender in the run: nothing else ever writes a time, and no message
    writes under another sender's key. *)
Theorem stored_times_are_call_times (calls : list call) (bot bot' : WhatsAppBot)
    (rs : list (option str)) (k : str) (t : datetime) :
  respond_all U calls bot = Return (rs, bot') →
  user_sessions bot' !! k = Some t →
  user_sessions bot !! k = Some t
  ∨ ∃ (i : nat) (c : call) (reply : str),
      calls !! i = Some c ∧ rs !! i = Some (Some reply)
      ∧ sender c = k ∧ check_clock c = t.
Proof.
  revert bot rs. induction calls as [|c calls IH]; intros bot rs Hrun Hk.
  - injection Hrun as <- <-. by left.
  - destruct (generate_response_cases U (sweep_clock c) (check_clock c) (text c)
                (sender c) bot) as [[Hstep _]|[Hstep _]];
      rewrite (respond_all_cons U _ _ _ _ _ Hstep) in Hrun;
      destruct (respond_all U calls _) as [[rs1 bot2]|] eqn:Hrest; try done;
      injection Hrun as <- <-; cbn [fst snd] in *;
      destruct (IH _ _ Hrest Hk) as [Hbefore|(i & c' & reply & Hc' & Hr & Hs & Ht)];
      try (right; by exists (S i), c', reply).
    + left. by eapply after_cleanup_lookup.
    + cbn in Hbefore. destruct (decide (sender c = k)) as [Hsame|Hother].
      * rewrite Hsame, lookup_insert_eq in Hbefore. injection Hbefore as <-.
        right. by exists 0%nat, c, (response_logic (strip U (lower U (text c)))).
      * rewrite lookup_insert_ne in Hbefore by done.
        left. by eapply after_cleanup_lookup.
Qed.

(** X3: the session map grows by at most one entry for each answered
    message; a withheld message adds none. *)
Theorem sessions_grow_by_answers (calls : list call) (bot bot' : WhatsAppBot)
    (rs : list (option str)) :
  respond_all U calls bot = Return (rs, bot') →
  (size (user_sessions bot') <= size (user_sessions bot) + length (answered rs))%nat.
Proof.
  revert bot rs. induction calls as [|c calls IH]; intros bot rs Hrun.
  - injection Hrun as <- <-. simpl. lia.
  - pose proof (map_subseteq_size _ _ (after_cleanup_subseteq (sweep_clock c) bot))
      as Hsweep.
    destruct (generate_response_cases U (sweep_clock c) (check_clock c) (text c)
                (sender c) bot) as [[Hstep _]|[Hstep _]];
      rewrite (respond_all_cons U _ _ _ _ _ Hstep) in Hrun;
      destruct (respond_all U calls _) as [[rs1 bot2]|] eqn:Hrest; try done;
      injection Hrun as <- <-; cbn [fst snd];
      specialize (IH _ _ Hrest).
    + unfold answered in *. cbn [omap list_omap id]. lia.
    + unfold answered in *. cbn [omap list_omap id length].
      cbn [touched user_sessions] in IH.
      pose proof (map_size_insert (sender c) (check_clock c)
                    (user_sessions (after_cleanup (sweep_clock c) bot))) as Hins.
      destruct (user_sessions (after_cleanup (sweep_clock c) bot) !! sender c);
        unfold id in Hins; lia.
Qed.

End Runs.

(** ** The sweep and its two loops *)

(** X4: [cleanup_old_sessions] never raises, adds no entry and changes no
    stored time; and once it has swept, it does nothing on any later call
    within the next 300 s. *)
Theorem sweep_only_deletes (now : datetime) (self : WhatsAppBot) :
  ∃ self' : WhatsAppBot,
    cleanup_old_sessions now self = Return self'
    ∧ user_sessions self' ⊆ user_sessions self
    ∧ (300 < seconds (now - last_cleanup self) →
       ∀ later : datetime,
         0 <= later - now <= 300 * microseconds_per_second →
         cleanup_old_sessions later self' = Return self').
Proof.
  exists (after_cleanup now self).
  split; [apply cleanup_old_sessions_returns|].
  split; [apply after_cleanup_subseteq|].
  intros Hrun later Hlater. apply no_sweep_before_300_seconds.
  unfold after_cleanup. by rewrite bool_decide_eq_true_2.
Qed.

(** X5: the deleting loop returns exactly when the keys it is given are
    all in the dictionary and no key comes twice; a key that is missing, or
    was deleted earlier in the loop, raises [KeyError].  When it returns,
    the listed keys are gone and every other entry is as before. *)
Theorem delete_all_needs_distinct_present_keys (to_delete : list str)
    (d : gmap str datetime) :
  ((∃ d', delete_all to_delete d = Return d')
   ↔ NoDup to_delete ∧ ∀ k, k ∈ to_delete → is_Some (d !! k))
  ∧ (∀ d', delete_all to_delete d = Return d' →
       ∀ k, d' !! k = if decide (k ∈ to_delete) then None else d !! k).
Proof.
  assert (∀ keys (m m' : gmap str datetime),
            delete_all keys m = Return m' →
            NoDup keys ∧ ∀ k, k ∈ keys → is_Some (m !! k)) as Hback.
  { induction keys as [|key keys IH]; intros m m' Hrun.
    - split; [constructor|]. by intros k Hk%elem_of_nil.
    - cbn in Hrun. unfold dict_delitem in Hrun.
      destruct (m !! key) as [v|] eqn:Hkey; [|done]. cbn in Hrun.
      destruct (IH _ _ Hrun) as [Hnd Hin]. split.
      + constructor; [|done]. intros Hk. destruct (Hin key Hk) as [v' Hv'].
        by rewrite lookup_delete_eq in Hv'.
      + intros k [->|Hk]%elem_of_cons; [by eexists|].
        destruct (Hin k Hk) as [v' Hv'].
        destruct (decide (k = key)) as [->|Hne]; [by eexists|].
        rewrite lookup_delete_ne in Hv' by done. by eexists. }
  split.
  - split.
    + intros [d' Hrun]. by eapply Hback.
    + intros [Hnd Hin]. destruct (delete_all_returns to_delete d Hnd Hin) as (d' & Hrun & _).
      by exists d'.
  - intros d' Hrun. destruct (Hback _ _ _ Hrun) as [Hnd Hin].
    destruct (delete_all_returns to_delete d Hnd Hin) as (d'' & Hrun' & Hlook).
    rewrite Hrun in Hrun'. by injection Hrun' as <-.
Qed.

(** X6: the collecting loop lists the keys whose age has a seconds field
    above 300, each of them once and no other key. *)
Theorem collect_old_lists_expired_once (now : datetime) (d : gmap str datetime) :
  NoDup (collect_old now (map_to_list d))
  ∧ ∀ k : str, k ∈ collect_old now (map_to_list d)
               ↔ ∃ t, d !! k = Some t ∧ 300 < seconds (now - t).
Proof. split; [apply NoDup_collect_old|]. intros k. apply elem_of_collect_old. Qed.

(** ** Whole days *)

Lemma seconds_shift (a b n : Z) :
  seconds (a + n * microseconds_per_day - b) = seconds (a - b).
Proof.
  replace (a + n * microseconds_per_day - b) with (a - b + n * microseconds_per_day)
    by lia.
  apply seconds_plus_days.
Qed.

Lemma after_cleanup_shift (now n : Z) (self : WhatsAppBot) :
  user_sessions (after_cleanup (now + n * microseconds_per_day) self)
  = user_sessions (after_cleanup now self).
Proof.
  unfold after_cleanup. rewrite seconds_shift. case_bool_decide; [|done]. simpl.
  apply map_eq. intros k. rewrite !lookup_swept.
  destruct (user_sessions self !! k); [|done]. by rewrite seconds_shift.
Qed.

Section Days.
Variable U : unicode_db.

(** X7: the responder sees time only up to whole days.  Moving both clock
    readings of a call by any number of days, forwards or backwards, gives
    the same outcome, withheld or the same reply, and the same senders in
    the session map afterwards. *)
Theorem whole_days_are_invisible (n : Z) (now current_time : datetime)
    (message from_number : str) (self : WhatsAppBot) :
  ∃ (r : option str) (self1 self2 : WhatsAppBot),
    generate_response U now current_time message from_number self = Return (r, self1)
    ∧ generate_response U (now + n * microseconds_per_day)
        (current_time + n * microseconds_per_day) message from_number self
      = Return (r, self2)
    ∧ dom (user_sessions self1) = dom (user_sessions self2).
Proof.
  rewrite !generate_response_returns. cbv zeta.
  rewrite (after_cleanup_shift now n self).
  destruct (user_sessions (after_cleanup now self) !! from_number) as [t|].
  - rewrite seconds_shift. case_bool_decide.
    + eexists _, _, _. split; [done|]. split; [done|].
      by rewrite after_cleanup_shift.
    + eexists _, _, _. split; [done|]. split; [done|].
      cbn. by rewrite !dom_insert_L, after_cleanup_shift.
  - eexists _, _, _. split; [done|]. split; [done|].
    cbn. by rewrite !dom_insert_L, after_cleanup_shift.
Qed.

End Days.

(** ** Letter case and white space around a message *)

Lemma ascii_lower_idempotent (c : N) : ascii_lower (ascii_lower c) = ascii_lower c.
Proof.
  unfold ascii_lower.
  destruct ((65 <=? c)%N && (c <=? 90)%N) eqn:Hc; [|by rewrite Hc].
  apply andb_true_iff in Hc as [Hlo%N.leb_le Hhi%N.leb_le].
  rewrite (proj2 (N.leb_gt (c + 32) 90)) by lia. by rewrite andb_false_r.
Qed.

Lemma ascii_lower_keeps_ascii (c : N) : (c < 128)%N → (ascii_lower c < 128)%N.
Proof.
  unfold ascii_lower. intros Hc.
  destruct ((65 <=? c)%N && (c <=? 90)%N) eqn:Hup; [|done].
  apply andb_true_iff in Hup as [_ Hhi%N.leb_le]. lia.
Qed.

Lemma ascii_space_below (c : N) : ascii_isspace c = true → (c < 128)%N.
Proof.
  unfold ascii_isspace.
  intros [[_ Hc%N.leb_le]%andb_true_iff|[_ Hc%N.leb_le]%andb_true_iff]%orb_true_iff; lia.
Qed.

Lemma ascii_lower_space (c : N) : ascii_isspace c = true → ascii_lower c = c.
Proof.
  unfold ascii_isspace, ascii_lower.
  intros [[_ Hc%N.leb_le]%andb_true_iff|[_ Hc%N.leb_le]%andb_true_iff]%orb_true_iff;
    rewrite (proj2 (N.leb_gt 65 c)) by lia; done.
Qed.

Lemma ascii_lower_spaces (ws : str) :
  Forall (fun c => ascii_isspace c = true) ws → ascii_lower <$> ws = ws.
Proof.
  induction 1 as [|c ws Hc _ IH]; [done|].
  cbn [fmap list_fmap]. rewrite ascii_lower_space by done. by f_equal.
Qed.

Section OuterSpace.
Variable U : unicode_db.

Lemma isspace_ascii_space (c : N) : ascii_isspace c = true → isspace U c = true.
Proof.
  intros Hc. unfold isspace.
  by rewrite (proj2 (N.ltb_lt c 128) (ascii_space_below c Hc)).
Qed.

Lemma rstrip_spaces (ws : str) :
  Forall (fun c => ascii_isspace c = true) ws → rstrip U ws = [].
Proof.
  induction 1 as [|c ws Hc _ IH]; [done|].
  cbn [rstrip]. by rewrite IH, isspace_ascii_space.
Qed.

Lemma strip_trailing_spaces (x ws : str) :
  Forall (fun c => ascii_isspace c = true) ws → strip U (x ++ ws) = strip U x.
Proof.
  intros Hws. unfold strip. induction x as [|c x IH].
  - cbn [app lstrip rstrip]. induction Hws as [|c ws Hc _ IH]; [done|].
    cbn [lstrip]. by rewrite isspace_ascii_space.
  - cbn [app lstrip]. destruct (isspace U c); [done|].
    change (c :: x ++ ws) with ((c :: x) ++ ws).
    by rewrite rstrip_app, rstrip_spaces.
Qed.

Lemma strip_leading_spaces (ws x : str) :
  Forall (fun c => ascii_isspace c = true) ws → strip U (ws ++ x) = strip U x.
Proof.
  unfold strip. induction 1 as [|c ws Hc _ IH]; [done|].
  cbn [app lstrip]. by rewrite isspace_ascii_space.
Qed.

(** X8: for a message in ASCII, the outcome of a call depends neither on
    the letter case of the message nor on ASCII white space before and after
    it: the call behaves as on the lowered message alone. *)
Theorem reply_ignores_case_and_outer_space (ws1 message ws2 from_number : str)
    (now current_time : datetime) (self : WhatsAppBot) :
  Forall (fun c => (c < 128)%N) message →
  Forall (fun c => ascii_isspace c = true) ws1 →
  Forall (fun c => ascii_isspace c = true) ws2 →
  generate_response U now current_time (ws1 ++ message ++ ws2) from_number self
  = generate_response U now current_time (ascii_lower <$> message) from_number self.
Proof.
  intros Hm Hws1 Hws2. rewrite !generate_response_returns.
  assert (strip U (lower U (ws1 ++ message ++ ws2))
          = strip U (lower U (ascii_lower <$> message))) as ->; [|done].
  rewrite !lower_ascii.
  - rewrite !fmap_app, (ascii_lower_spaces ws1), (ascii_lower_spaces ws2) by done.
    rewrite strip_leading_spaces, strip_trailing_spaces by done.
    f_equal. rewrite <- list_fmap_compose. apply list_fmap_ext.
    intros ? c _. unfold compose. by rewrite ascii_lower_idempotent.
  - apply Forall_fmap. eapply Forall_impl; [exact Hm|].
    intros c. apply ascii_lower_keeps_ascii.
  - repeat apply Forall_app_2; [|done|];
      (eapply Forall_impl; [eassumption|]); intros c; apply ascii_space_below.
Qed.

End OuterSpace.

(** ** Triggers inside triggers *)

Lemma contains_inside (inner outer message : str) :
  occurs inner outer → contains outer message = true → contains inner message = true.
Proof.
  intros (x & y & ->) (p & q & ->)%contains_occurs.
  apply contains_occurs. exists (p ++ x), (y ++ q). by rewrite <- !app_assoc.
Qed.

(** X9: three triggers never decide anything.  A message with [assalam] in
    it has [salam] in it, one with [thanks] has [thank] and one with
    [goodbye] has [bye], so the tests of the greeting, thanks and farewell
    branches come out the same without them. *)
Theorem longer_triggers_are_redundant (message : str) :
  any_in [lit "hello"; lit "hi"; lit "hey"; lit "salam"; lit "assalam"] message
  = any_in [lit "hello"; lit "hi"; lit "hey"; lit "salam"] message
  ∧ any_in [lit "thanks"; lit "thank"; lit "shukriya"] message
    = any_in [lit "thank"; lit "shukriya"] message
  ∧ any_in [lit "bye"; lit "goodbye"; lit "allah hafiz"] message
    = any_in [lit "bye"; lit "allah hafiz"] message.
Proof.
  assert (occurs (lit "salam") (lit "assalam")) as Hsalam.
  { exists (lit "as"), []. vm_compute. reflexivity. }
  assert (occurs (lit "thank") (lit "thanks")) as Hthank.
  { exists [], (lit "s"). vm_compute. reflexivity. }
  assert (occurs (lit "bye") (lit "goodbye")) as Hbye.
  { exists (lit "good"), []. vm_compute. reflexivity. }
  unfold any_in. cbn [existsb]. repeat split.
  - destruct (contains (lit "assalam") message) eqn:Hlong.
    + rewrite (contains_inside _ _ _ Hsalam Hlong). by rewrite !orb_true_r.
    + done.
  - destruct (contains (lit "thanks") message) eqn:Hlong; [|done].
    by rewrite (contains_inside _ _ _ Hthank Hlong).
  - destruct (contains (lit "goodbye") message) eqn:Hlong; [|done].
    rewrite (contains_inside _ _ _ Hbye Hlong). done.
Qed.

(** ** Retries, on either route *)

Section Retries.
Variable U : unicode_db.

Lemma handle_webhook_rejects (now current_time : datetime)
    (form : list (str * str)) (bot : WhatsAppBot) :
  replace (lit "whatsapp:") [] (form_get (lit "From") [] form) = []
  ∨ form_get (lit "Body") [] form = [] →
  handle_webhook U now current_time form bot
  = Return ({| body := PlainText (lit "Missing data"); status := 400 |}, bot).
Proof.
  intros Hmissing. unfold handle_webhook. cbv zeta.
  destruct Hmissing as [-> | ->]; [done|]. by rewrite orb_true_r.
Qed.

(** A webhook call that sends a reply has stamped the sender's entry. *)
Lemma handle_webhook_replied (now current_time : datetime)
    (form : list (str * str)) (bot bot1 : WhatsAppBot) (reply : str) :
  handle_webhook U now current_time form bot
    = Return ({| body := TwiML [reply]; status := 200 |}, bot1) →
  user_sessions bot1 !! replace (lit "whatsapp:") [] (form_get (lit "From") [] form)
  = Some current_time.
Proof.
  intros Hrun.
  destruct (decide (replace (lit "whatsapp:") [] (form_get (lit "From") [] form) = []))
    as [Hfrom|Hfrom].
  { rewrite handle_webhook_rejects in Hrun by (by left). by injection Hrun. }
  destruct (decide (form_get (lit "Body") [] form = [])) as [Hbody|Hbody].
  { rewrite handle_webhook_rejects in Hrun by (by right). by injection Hrun. }
  destruct (generate_response_cases U now current_time
              (form_get (lit "Body") [] form)
              (replace (lit "whatsapp:") [] (form_get (lit "From") [] form)) bot)
    as [[Hstep _]|[Hstep _]];
    rewrite (handle_webhook_answers U _ _ _ _ _ _ Hfrom Hbody Hstep) in Hrun.
  - by injection Hrun.
  - injection Hrun as _ <-. apply lookup_insert_eq.
Qed.

(** X10: when a webhook call has sent a reply, a further POST for the same
    sender, with whatever non-empty body, that reads the clock less than two
    seconds after the first and not before it, is acknowledged with an empty
    TwiML response and status 200, on [/webhook] and on [/] alike, and the
    sender's stored time stays that of the first call. *)
Theorem retry_is_acknowledged_empty (form form' : list (str * str))
    (now current_time now' current_time' : datetime) (bot bot1 : WhatsAppBot)
    (reply : str) (args : list (str * str)) :
  handle_webhook U now current_time form bot
    = Return ({| body := TwiML [reply]; status := 200 |}, bot1) →
  replace (lit "whatsapp:") [] (form_get (lit "From") [] form')
    = replace (lit "whatsapp:") [] (form_get (lit "From") [] form) →
  form_get (lit "Body") [] form' ≠ [] →
  current_time <= now' <= current_time' →
  current_time' - current_time < 2 * microseconds_per_second →
  ∃ bot2 : WhatsAppBot,
    webhook U POST args form' now' current_time' bot1
      = Return ({| body := TwiML []; status := 200 |}, bot2)
    ∧ handle_all U POST form' now' current_time' bot1
      = Return ({| content := Body (TwiML []); code := 200 |}, bot2)
    ∧ user_sessions bot2
        !! replace (lit "whatsapp:") [] (form_get (lit "From") [] form)
      = Some current_time.
Proof.
  intros Hfirst Hsame Hbody [Hlo Hhi] Hgap.
  pose proof (handle_webhook_replied _ _ _ _ _ _ Hfirst) as Hstamp.
  assert (replace (lit "whatsapp:") [] (form_get (lit "From") [] form') ≠ []) as Hfrom.
  { rewrite Hsame. intros Hnil.
    rewrite handle_webhook_rejects in Hfirst by (by left). by injection Hfirst. }
  rewrite <- Hsame in Hstamp.
  destruct (repeat_within_two_seconds U now' current_time' current_time
              (form_get (lit "Body") [] form')
              (replace (lit "whatsapp:") [] (form_get (lit "From") [] form')) bot1
              Hstamp Hlo Hhi Hgap) as [Hstep Hkept].
  pose proof (handle_webhook_answers U _ _ _ _ _ _ Hfrom Hbody Hstep) as Hanswer.
  exists (after_cleanup now' bot1). cbn [webhook handle_all].
  rewrite Hanswer. split; [done|]. split; [done|]. by rewrite <- Hsame.
Qed.

End Retries.

(** ** The send endpoint *)

Lemma truthy_opt_Some (o : option str) :
  truthy_opt o = true ↔ ∃ s, o = Some s ∧ s ≠ [].
Proof.
  destruct o as [[|c s]|]; cbn.
  - split; [done|]. by intros (s & [= <-] & Hs).
  - split; [|done]. intros _. by exists (c :: s).
  - split; [done|]. by intros (s & [=] & _).
Qed.

(** X11: once [request.json] has been read, [send_message] answers 400
    exactly when the phone or the message is missing from the object or
    empty, and then the provider is not called; without a client it answers
    400 or 500 and calls nothing; in every case it calls the provider at most
    once; and when [request.json] is [None], as for a body that holds the
    JSON value [null], the answer is 400. *)
Theorem send_message_validates
    (twilio_client : option (outbound_message → create_result))
    (TWILIO_WHATSAPP_NUMBER : option str) (request_json : option (gmap str str)) :
  let result := send_message twilio_client TWILIO_WHATSAPP_NUMBER request_json in
  let data := default ∅ request_json in
  (code result.1 = 400
   ↔ ¬ ((∃ phone, data !! lit "phone" = Some phone ∧ phone ≠ [])
        ∧ ∃ message, data !! lit "message" = Some message ∧ message ≠ []))
  ∧ (code result.1 = 400 → result.2 = [])
  ∧ (twilio_client = None →
     result.2 = [] ∧ (code result.1 = 400 ∨ code result.1 = 500))
  ∧ (length result.2 <= 1)%nat
  ∧ (request_json = None → code result.1 = 400).
Proof.
  cbv zeta. unfold send_message. cbv zeta.
  rewrite <- !truthy_opt_Some.
  destruct (truthy_opt (default ∅ request_json !! lit "phone")) eqn:Hphone;
    destruct (truthy_opt (default ∅ request_json !! lit "message")) eqn:Hmessage;
    cbn [negb orb].
  2-4: repeat split; cbn [fst snd code length]; try done; try lia;
    try (by intros [? ?]); try (by left).
  assert (request_json ≠ None) as Hjson.
  { intros ->. cbn [default from_option id] in Hphone.
    by rewrite lookup_empty in Hphone. }
  destruct twilio_client as [create|].
  - destruct (create _) as [sid|description]; cbn [fst snd code length].
    all: repeat split; try done; try lia; try (by intros []).
  - cbn [fst snd code length]. repeat split; try done; try lia;
      try (by intros []); try (by right).
Qed.

(** X12: the address [send_message] gives the provider for a phone number
    in which [whatsapp:] does not occur comes back unchanged: the call goes
    out once, with the body and the sender number as given and the marker
    before the phone number, and an inbound message whose [From] is that
    address is handled under the phone number itself. *)
Theorem sent_address_is_read_back (create : outbound_message → create_result)
    (TWILIO_WHATSAPP_NUMBER : option str) (data : gmap str str) (phone message : str) :
  data !! lit "phone" = Some phone →
  data !! lit "message" = Some message →
  phone ≠ [] → message ≠ [] →
  contains (lit "whatsapp:") phone = false →
  ∃ (response : flask_response) (sent : outbound_message),
    send_message (Some create) TWILIO_WHATSAPP_NUMBER (Some data) = (response, [sent])
    ∧ sent = {| msg_body := message; msg_from := TWILIO_WHATSAPP_NUMBER;
                msg_to := lit "whatsapp:" ++ phone |}
    ∧ (code response = 200 ∨ code response = 500)
    ∧ ∀ (U : unicode_db) (now current_time : datetime) (text : str) (bot : WhatsAppBot),
        text ≠ [] →
        ∃ (r : option str) (bot' : WhatsAppBot),
          generate_response U now current_time text phone bot = Return (r, bot')
          ∧ handle_webhook U now current_time
              [(lit "From", msg_to sent); (lit "Body", text)] bot
            = Return ({| body := TwiML (option_list r); status := 200 |}, bot').
Proof.
  intros Hphone Hmessage Hp Hm Hfree.
  assert (lit "whatsapp:" ≠ []) as Hmarker by (by vm_compute).
  unfold send_message. cbv zeta. cbn [default from_option id].
  rewrite Hphone, Hmessage.
  rewrite (proj2 (truthy_opt_Some (Some phone))) by eauto.
  rewrite (proj2 (truthy_opt_Some (Some message))) by eauto.
  cbn [negb orb default from_option id].
  set (sent := {| msg_body := message; msg_from := TWILIO_WHATSAPP_NUMBER;
                  msg_to := lit "whatsapp:" ++ phone |}).
  assert (∀ (U : unicode_db) (now current_time : datetime) (text : str)
            (bot : WhatsAppBot),
            text ≠ [] →
            ∃ (r : option str) (bot' : WhatsAppBot),
              generate_response U now current_time text phone bot = Return (r, bot')
              ∧ handle_webhook U now current_time
                  [(lit "From", msg_to sent); (lit "Body", text)] bot
                = Return ({| body := TwiML (option_list r); status := 200 |}, bot'))
    as Hback.
  { intros U now current_time text bot Htext.
    assert (form_get (lit "From") [] [(lit "From", msg_to sent); (lit "Body", text)]
            = lit "whatsapp:" ++ phone) as Hfrom by (vm_compute; reflexivity).
    assert (form_get (lit "Body") [] [(lit "From", msg_to sent); (lit "Body", text)]
            = text) as Hbody by (vm_compute; reflexivity).
    assert (replace (lit "whatsapp:") []
              (form_get (lit "From") [] [(lit "From", msg_to sent); (lit "Body", text)])
            = phone) as Hsender.
    { rewrite Hfrom, replace_leading by done. by apply replace_absent. }
    destruct (call_returns U {| sweep_clock := now; check_clock := current_time;
                                text := text; sender := phone |} bot)
      as (r & bot' & Hstep).
    exists r, bot'. split; [exact Hstep|].
    apply handle_webhook_answers; rewrite ?Hsender, ?Hbody; done. }
  destruct (create sent) as [sid|description];
    eexists _, sent; (split; [reflexivity|]); (split; [done|]); (split; [|exact Hback]).
  - by left.
  - by right.
Qed.

(** ** The further properties at concrete messages *)

(** X1 at a burst: the sender again after half a second, another sender and
    the sender once more after a second. *)
Lemma burst_gets_one_reply_witness :
  Forall2 (fun c r => sender c = lit "+923001234567" → r = None)
    [ {| sweep_clock := 10500000; check_clock := 10500000;
         text := lit "menu"; sender := lit "+923001234567" |};
      message_at 11 (lit "+923007654321") (lit "hi");
      message_at 11 (lit "+923001234567") (lit "price") ]
    [None; Some get_welcome_message; None]
  ∧ user_sessions
      {| user_sessions := <[lit "+923007654321" := at_second 11]>
                            {[lit "+923001234567" := at_second 10]};
         last_cleanup := at_second 0 |} !! lit "+923001234567"
    = Some (check_clock (message_at 10 (lit "+923001234567") (lit "Hello"))).
Proof.
  refine (burst_gets_one_reply ascii_only (lit "+923001234567") get_welcome_message
            (message_at 10 (lit "+923001234567") (lit "Hello"))
            [ {| sweep_clock := 10500000; check_clock := 10500000;
                 text := lit "menu"; sender := lit "+923001234567" |};
              message_at 11 (lit "+923007654321") (lit "hi");
              message_at 11 (lit "+923001234567") (lit "price") ]
            (WhatsAppBot_init (at_second 0)) _ _ eq_refl _ _).
  - repeat first [apply Forall_nil | apply Forall_cons_2];
      vm_compute; (repeat split); discriminate || reflexivity.
  - vm_compute. reflexivity.
Defined.

(** X2 at the first message a new bot answers. *)
Lemma stored_times_are_call_times_witness :
  user_sessions (WhatsAppBot_init (at_second 0)) !! lit "+923001234567"
    = Some (at_second 10)
  ∨ ∃ (i : nat) (c : call) (reply : str),
      [message_at 10 (lit "+923001234567") (lit "Hello")] !! i = Some c
      ∧ [Some get_welcome_message] !! i = Some (Some reply)
      ∧ sender c = lit "+923001234567" ∧ check_clock c = at_second 10.
Proof.
  refine (stored_times_are_call_times ascii_only
            [message_at 10 (lit "+923001234567") (lit "Hello")]
            (WhatsAppBot_init (at_second 0))
            (touched (lit "+923001234567") (at_second 10)
               (WhatsAppBot_init (at_second 0)))
            [Some get_welcome_message] (lit "+923001234567") (at_second 10) _ _).
  - vm_compute. reflexivity.
  - vm_compute. reflexivity.
Defined.

(** X3 at a message and its repeat a second later. *)
Lemma sessions_grow_by_answers_witness :
  (size (user_sessions (touched (lit "+923001234567") (at_second 10)
                          (WhatsAppBot_init (at_second 0))))
   <= size (user_sessions (WhatsAppBot_init (at_second 0)))
      + length (answered [Some get_welcome_message; None]))%nat.
Proof.
  refine (sessions_grow_by_answers ascii_only
            [ message_at 10 (lit "+923001234567") (lit "Hello");
              message_at 11 (lit "+923001234567") (lit "Hello") ]
            (WhatsAppBot_init (at_second 0)) _ [Some get_welcome_message; None] _).
  vm_compute. reflexivity.
Defined.

(** X8 at [MeNu] between blanks. *)
Lemma reply_ignores_case_and_outer_space_witness :
  generate_response ascii_only (at_second 10) (at_second 10)
    (lit "  " ++ lit "MeNu" ++ lit "   ") (lit "+923001234567")
    (WhatsAppBot_init (at_second 0))
  = generate_response ascii_only (at_second 10) (at_second 10)
      (ascii_lower <$> lit "MeNu") (lit "+923001234567")
      (WhatsAppBot_init (at_second 0)).
Proof.
  refine (reply_ignores_case_and_outer_space ascii_only (lit "  ") (lit "MeNu")
            (lit "   ") (lit "+923001234567") (at_second 10) (at_second 10)
            (WhatsAppBot_init (at_second 0)) _ _ _);
    repeat first [apply Forall_nil | apply Forall_cons_2];
    vm_compute; reflexivity.
Defined.

(** X10 at a [hello] and, a second later, a [menu] from the same number. *)
Lemma retry_is_acknowledged_empty_witness :
  ∃ bot2 : WhatsAppBot,
    webhook ascii_only POST []
      [(lit "From", lit "whatsapp:+923001234567"); (lit "Body", lit "menu")]
      (at_second 11) (at_second 11)
      (touched (lit "+923001234567") (at_second 10) (WhatsAppBot_init (at_second 0)))
    = Return ({| body := TwiML []; status := 200 |}, bot2)
    ∧ handle_all ascii_only POST
        [(lit "From", lit "whatsapp:+923001234567"); (lit "Body", lit "menu")]
        (at_second 11) (at_second 11)
        (touched (lit "+923001234567") (at_second 10) (WhatsAppBot_init (at_second 0)))
      = Return ({| content := Body (TwiML []); code := 200 |}, bot2)
    ∧ user_sessions bot2
        !! replace (lit "whatsapp:") []
             (form_get (lit "From") []
                [(lit "From", lit "whatsapp:+923001234567"); (lit "Body", lit "hello")])
      = Some (at_second 10).
Proof.
  refine (retry_is_acknowledged_empty ascii_only
            [(lit "From", lit "whatsapp:+923001234567"); (lit "Body", lit "hello")]
            [(lit "From", lit "whatsapp:+923001234567"); (lit "Body", lit "menu")]
            (at_second 10) (at_second 10) (at_second 11) (at_second 11)
            (WhatsAppBot_init (at_second 0))
            (touched (lit "+923001234567") (at_second 10)
               (WhatsAppBot_init (at_second 0)))
            get_welcome_message [] _ _ _ _ _).
  - vm_compute. reflexivity.
  - vm_compute. reflexivity.
  - vm_compute. discriminate.
  - vm_compute. split; discriminate.
  - vm_compute. reflexivity.
Defined.

(** X12 at a request to send [hi] to a number, with a provider that accepts
    it. *)
Lemma sent_address_is_read_back_witness :
  ∃ (response : flask_response) (sent : outbound_message),
    send_message (Some (fun _ => Created (lit "SM1"))) (Some (lit "whatsapp:+14155238886"))
      (Some (<[lit "phone" := lit "+923001234567"]> {[lit "message" := lit "hi"]}))
    = (response, [sent])
    ∧ sent = {| msg_body := lit "hi"; msg_from := Some (lit "whatsapp:+14155238886");
                msg_to := lit "whatsapp:" ++ lit "+923001234567" |}
    ∧ (code response = 200 ∨ code response = 500)
    ∧ ∀ (U : unicode_db) (now current_time : datetime) (text : str) (bot : WhatsAppBot),
        text ≠ [] →
        ∃ (r : option str) (bot' : WhatsAppBot),
          generate_response U now current_time text (lit "+923001234567") bot
            = Return (r, bot')
          ∧ handle_webhook U now current_time
              [(lit "From", msg_to sent); (lit "Body", text)] bot
            = Return ({| body := TwiML (option_list r); status := 200 |}, bot').
Proof.
  refine (sent_address_is_read_back (fun _ => Created (lit "SM1"))
            (Some (lit "whatsapp:+14155238886"))
            (<[lit "phone" := lit "+923001234567"]> {[lit "message" := lit "hi"]})
            (lit "+923001234567") (lit "hi") _ _ _ _ _).
  - vm_compute. reflexivity.
  - vm_compute. reflexivity.
  - vm_compute. discriminate.
  - vm_compute. discriminate.
  - vm_compute. reflexivity.
Defined.

(** ** Why a message is withheld, and the windows within a day *)

Section Windows.
Variable U : unicode_db.

(** X13: a message is withheld only because of an answered one.  In a run,
    a withheld message has the same sender as an entry that was in the
    session map before the run, or as an earlier message of the run that was
    answered, and the time from that entry or message to the check of the
    withheld one has a seconds field below 2. *)
Theorem withheld_only_after_an_answer (calls : list call) (bot bot' : WhatsAppBot)
    (rs : list (option str)) (i : nat) (c : call) :
  respond_all U calls bot = Return (rs, bot') →
  calls !! i = Some c →
  rs !! i = Some None →
  (∃ t, user_sessions bot !! sender c = Some t ∧ seconds (check_clock c - t) < 2)
  ∨ ∃ (j : nat) (earlier : call) (reply : str),
      (j < i)%nat ∧ calls !! j = Some earlier ∧ rs !! j = Some (Some reply)
      ∧ sender earlier = sender c
      ∧ seconds (check_clock c - check_clock earlier) < 2.
Proof.
  revert bot rs i. induction calls as [|c0 calls IH]; intros bot rs i Hrun Hc Hr; [done|].
  destruct (generate_response_cases U (sweep_clock c0) (check_clock c0) (text c0)
              (sender c0) bot) as [[Hstep (t & Hk & Hdup)]|[Hstep _]];
    rewrite (respond_all_cons U _ _ _ _ _ Hstep) in Hrun;
    destruct (respond_all U calls _) as [[rs1 bot2]|] eqn:Hrest; try done;
    injection Hrun as <- <-; cbn [fst snd] in *;
    destruct i as [|i]; cbn in Hc, Hr.
  - injection Hc as <-. left. exists t. split; [|done]. by eapply after_cleanup_lookup.
  - destruct (IH _ _ _ Hrest Hc Hr)
      as [(t' & Hk' & Hdup')|(j & earlier & reply & Hj & Hearlier & Hreply & Hs & Hd)].
    + left. exists t'. split; [|done]. by eapply after_cleanup_lookup.
    + right. exists (S j), earlier, reply. repeat split; try done. lia.
  - done.
  - destruct (IH _ _ _ Hrest Hc Hr)
      as [(t' & Hk' & Hdup')|(j & earlier & reply & Hj & Hearlier & Hreply & Hs & Hd)].
    + cbn in Hk'. destruct (decide (sender c0 = sender c)) as [Hsame|Hother].
      * rewrite Hsame, lookup_insert_eq in Hk'. injection Hk' as <-.
        right. exists 0%nat, c0, (response_logic (strip U (lower U (text c0)))).
        repeat split; try done. lia.
      * rewrite lookup_insert_ne in Hk' by done.
        left. exists t'. split; [|done]. by eapply after_cleanup_lookup.
    + right. exists (S j), earlier, reply. repeat split; try done. lia.
Qed.

(** X14: within a day of the stored time the duplicate window is two
    seconds, as the comment in the code says: with the clock not running
    backwards, a message of a sender with an entry less than a day old is
    withheld exactly when it comes less than two seconds after the stored
    time; withheld, it leaves the stored time, answered, it sets it to the
    time of the check. *)
Theorem duplicate_window_within_a_day (now current_time t : datetime)
    (message from_number : str) (self : WhatsAppBot) :
  user_sessions self !! from_number = Some t →
  t <= now <= current_time →
  current_time - t < microseconds_per_day →
  ∃ (r : option str) (self' : WhatsAppBot),
    generate_response U now current_time message from_number self = Return (r, self')
    ∧ (r = None ↔ current_time - t < 2 * microseconds_per_second)
    ∧ user_sessions self' !! from_number
      = Some (match r with None => t | Some _ => current_time end).
Proof.
  intros Hk [Hlo Hhi] Hday.
  destruct (decide (current_time - t < 2 * microseconds_per_second)) as [Hgap|Hgap].
  - destruct (repeat_within_two_seconds U now current_time t message from_number self
                Hk Hlo Hhi Hgap) as [Hstep Hkept].
    by exists None, (after_cleanup now self).
  - destruct (later_same_day_is_answered U now current_time t message from_number self Hk)
      as (reply & self' & Hstep & Hstamp); [lia|].
    exists (Some reply), self'. split; [done|]. split; [|done].
    split; [done|]. intros Hlt. lia.
Qed.

End Windows.

(** X15: a sweep that runs tells entries less than a day old apart by their
    age in whole seconds: with the clock not running backwards, such an
    entry is deleted exactly when it is 301 s old or older, and is otherwise
    kept with its time; [last_cleanup] becomes the time of the sweep. *)
Theorem sweep_deletes_by_age_within_a_day (now t : datetime) (self : WhatsAppBot)
    (k : str) :
  300 < seconds (now - last_cleanup self) →
  user_sessions self !! k = Some t →
  0 <= now - t < microseconds_per_day →
  ∃ self' : WhatsAppBot,
    cleanup_old_sessions now self = Return self'
    ∧ last_cleanup self' = now
    ∧ (user_sessions self' !! k = None ↔ 301 * microseconds_per_second <= now - t)
    ∧ (user_sessions self' !! k = None ∨ user_sessions self' !! k = Some t).
Proof.
  intros Hrun Hk Hage.
  destruct (sweep_within_a_day now self Hrun) as (self' & Hsweep & Hlast & _ & Hentries).
  destruct (Hentries k t Hk) as [Hkeep Hdrop].
  exists self'. split; [done|]. split; [done|].
  destruct (decide (301 * microseconds_per_second <= now - t)) as [Hold|Hyoung].
  - rewrite Hdrop by lia. split; [done|by left].
  - rewrite cleanup_old_sessions_returns in Hsweep. injection Hsweep as <-.
    unfold after_cleanup. rewrite bool_decide_eq_true_2 by done. simpl.
    rewrite lookup_swept, Hk.
    rewrite bool_decide_eq_false_2.
    + split; [|by right]. split; [done|]. intros Hold. lia.
    + rewrite seconds_within_a_day by done.
      unfold microseconds_per_second in *. Z.div_mod_to_equations. lia.
Qed.

(** X13 at a message and its repeat a second later. *)
Lemma withheld_only_after_an_answer_witness :
  (∃ t, user_sessions (WhatsAppBot_init (at_second 0))
          !! sender (message_at 11 (lit "+923001234567") (lit "Hello")) = Some t
        ∧ seconds (check_clock (message_at 11 (lit "+923001234567") (lit "Hello")) - t)
          < 2)
  ∨ ∃ (j : nat) (earlier : call) (reply : str),
      (j < 1)%nat
      ∧ [ message_at 10 (lit "+923001234567") (lit "Hello");
          message_at 11 (lit "+923001234567") (lit "Hello") ] !! j = Some earlier
      ∧ [Some get_welcome_message; None] !! j = Some (Some reply)
      ∧ sender earlier = sender (message_at 11 (lit "+923001234567") (lit "Hello"))
      ∧ seconds (check_clock (message_at 11 (lit "+923001234567") (lit "Hello"))
                 - check_clock earlier) < 2.
Proof.
  refine (withheld_only_after_an_answer ascii_only
            [ message_at 10 (lit "+923001234567") (lit "Hello");
              message_at 11 (lit "+923001234567") (lit "Hello") ]
            (WhatsAppBot_init (at_second 0))
            (touched (lit "+923001234567") (at_second 10)
               (WhatsAppBot_init (at_second 0)))
            [Some get_welcome_message; None] 1
            (message_at 11 (lit "+923001234567") (lit "Hello")) _ _ _).
  - vm_compute. reflexivity.
  - reflexivity.
  - reflexivity.
Defined.

(** X14 at a message three seconds after the stored time. *)
Lemma duplicate_window_within_a_day_witness :
  ∃ (r : option str) (self' : WhatsAppBot),
    generate_response ascii_only (at_second 13) (at_second 13) (lit "menu")
      (lit "+923001234567")
      (touched (lit "+923001234567") (at_second 10) (WhatsAppBot_init (at_second 0)))
    = Return (r, self')
    ∧ (r = None ↔ at_second 13 - at_second 10 < 2 * microseconds_per_second)
    ∧ user_sessions self' !! lit "+923001234567"
      = Some (match r with None => at_second 10 | Some _ => at_second 13 end).
Proof.
  refine (duplicate_window_within_a_day ascii_only (at_second 13) (at_second 13)
            (at_second 10) (lit "menu") (lit "+923001234567")
            (touched (lit "+923001234567") (at_second 10)
               (WhatsAppBot_init (at_second 0))) _ _ _).
  - vm_compute. reflexivity.
  - vm_compute. split; discriminate.
  - vm_compute. reflexivity.
Defined.

(** X15 at a sweep 400 s after the bot was made, over an entry 390 s old. *)
Lemma sweep_deletes_by_age_within_a_day_witness :
  ∃ self' : WhatsAppBot,
    cleanup_old_sessions (at_second 400)
      (touched (lit "+923001234567") (at_second 10) (WhatsAppBot_init (at_second 0)))
    = Return self'
    ∧ last_cleanup self' = at_second 400
    ∧ (user_sessions self' !! lit "+923001234567" = None
       ↔ 301 * microseconds_per_second <= at_second 400 - at_second 10)
    ∧ (user_sessions self' !! lit "+923001234567" = None
       ∨ user_sessions self' !! lit "+923001234567" = Some (at_second 10)).
Proof.
  refine (sweep_deletes_by_age_within_a_day (at_second 400) (at_second 10)
            (touched (lit "+923001234567") (at_second 10)
               (WhatsAppBot_init (at_second 0)))
            (lit "+923001234567") _ _ _).
  - vm_compute. reflexivity.
  - vm_compute. reflexivity.
  - vm_compute. split; [discriminate|reflexivity].
Defined.
